(** * ShivyC: the syntax-tree nodes of [ast.py] and their code generation

    A shallow embedding of [ast.py]: the four node classes, the checks their
    constructors make, the structural equality of [Node.__eq__] and the
    [make_code] walk, which appends to a code store and hands value
    descriptors from the children to their parent.

    Python objects are modelled by inductive types, exceptions by the left
    summand of a sum, and the code store, which the walk mutates, by explicit
    state passing: the store a call leaves behind is returned also when the
    call raises. *)

From Stdlib Require Import ZArith List String Ascii Bool.
From Stdlib Require Import Decimal DecimalString DecimalPos.
Import ListNotations.

Open Scope string_scope.
Open Scope list_scope.
Open Scope Z_scope.

(** ** Tokens

    [tokens.py] and [token_kinds.py] are not part of the sources. *)

(** Modelled from the spec: the token kinds of [token_kinds.py], "a fixed
    enumeration (at minimum: number, plus, star, and the kinds used for any
    other grammar terminals)". *)
Inductive TokenKind : Type :=
| number
| plus
| star
| other_kind (name : string).

(** Modelled from the spec: the class [Token] of [tokens.py], "an immutable
    record with a kind and literal text content". *)
Record Token : Type := mkToken { kind : TokenKind; content : string }.

Definition TokenKind_eqb (a b : TokenKind) : bool :=
  match a, b with
  | number, number => true
  | plus, plus => true
  | star, star => true
  | other_kind x, other_kind y => String.eqb x y
  | _, _ => false
  end.

(** Modelled from the spec: [Token.__eq__], "two tokens are equal iff kind and
    content match". *)
Definition Token_eqb (a b : Token) : bool :=
  TokenKind_eqb (kind a) (kind b) && String.eqb (content a) (content b).

(** ** Value descriptors, exceptions, the code store *)

(** Modelled from the spec: the storage kinds of [code_gen.ValueInfo]; only
    [LITERAL] is used by [ast.py], the others stand for the kinds "in
    register", "in memory slot" the type is meant to grow. *)
Inductive StorageType : Type :=
| LITERAL
| other_storage (tag : nat).

Definition StorageType_eqb (a b : StorageType) : bool :=
  match a, b with
  | LITERAL, LITERAL => true
  | other_storage x, other_storage y => Nat.eqb x y
  | _, _ => false
  end.

(** What a [make_code] call can hand back: a [ValueInfo] object, [None] (the
    statement and top-level nodes fall off the end of the method), or the
    exception class [NotImplementedError] itself, which [multiply] returns. *)
Inductive PyValue : Type :=
| VNone
| VValueInfo (storage_type : StorageType) (storage_info : string)
| VNotImplementedError_class.

(** One argument of a raised [ValueError]: a string or a token kind. *)
Inductive ExnArg : Type :=
| AStr (s : string)
| AKind (k : TokenKind).

Inductive Exn : Type :=
| ValueError (args : list ExnArg)
| NotImplementedError
| AssertionError
| AttributeError.

(** Modelled from the spec: the code store, which exposes "a minimal
    ordered-append protocol": [add_label] and [add_command]. *)
Inductive Item : Type :=
| Label (name : string)
| Command (parts : list string).

Definition CodeStore : Type := list Item.

Definition add_label (name : string) (cs : CodeStore) : CodeStore :=
  cs ++ [Label name].

Definition add_command (parts : list string) (cs : CodeStore) : CodeStore :=
  cs ++ [Command parts].

(** ** Python's [int(str)] and [str(int)] *)

(** The characters [int] strips from both ends of an ASCII string: tab to
    carriage return (9 to 13) and the space. *)
Definition is_space (c : ascii) : bool :=
  let n := nat_of_ascii c in
  (((9 <=? n) && (n <=? 13)) || (n =? 32))%nat.

Fixpoint lstrip (s : string) : string :=
  match s with
  | EmptyString => EmptyString
  | String c r => if is_space c then lstrip r else s
  end.

Fixpoint rstrip (s : string) : string :=
  match s with
  | EmptyString => EmptyString
  | String c r =>
      match rstrip r with
      | EmptyString => if is_space c then EmptyString else String c EmptyString
      | r' => String c r'
      end
  end.

(** The digits of a literal: an underscore may stand between two digits, never
    first, last or doubled; there is at least one digit.  The underscores are
    dropped; a byte that is not a digit is rejected by [digits_value]. *)
Fixpoint drop_underscores (after_digit : bool) (s : string) : option string :=
  match s with
  | EmptyString => if after_digit then Some EmptyString else None
  | String c r =>
      if Ascii.eqb c "_"%char
      then (if after_digit then drop_underscores false r else None)
      else option_map (String c) (drop_underscores true r)
  end.

Definition digits_value (s : string) : option N :=
  match drop_underscores false s with
  | None => None
  | Some ds => option_map N.of_uint (NilEmpty.uint_of_string ds)
  end.

(** [repr(s)] for an ASCII string [s]: between single quotes, or between
    double quotes when the string holds a single quote and no double one;
    the quote in use and the backslash are escaped, tab, line feed and
    carriage return are written [\t], [\n], [\r], and the other control
    characters [\xhh]. *)
Definition single_quote : ascii := ascii_of_nat 39.

Definition double_quote : ascii := ascii_of_nat 34.

Definition backslash : ascii := ascii_of_nat 92.

Fixpoint contains (c : ascii) (s : string) : bool :=
  match s with
  | EmptyString => false
  | String c' r => Ascii.eqb c c' || contains c r
  end.

Definition repr_quote (s : string) : ascii :=
  if contains single_quote s && negb (contains double_quote s)
  then double_quote else single_quote.

Definition hex_digit (n : nat) : ascii :=
  if (n <? 10)%nat then ascii_of_nat (48 + n) else ascii_of_nat (87 + n).

Definition repr_char (quote c : ascii) : string :=
  let n := nat_of_ascii c in
  if Ascii.eqb c quote || Ascii.eqb c backslash
  then String backslash (String c EmptyString)
  else if (n =? 9)%nat then String backslash "t"
  else if (n =? 10)%nat then String backslash "n"
  else if (n =? 13)%nat then String backslash "r"
  else if ((n <? 32) || (n =? 127))%nat
  then String backslash
         (String "x" (String (hex_digit (n / 16))
                        (String (hex_digit (n mod 16)) EmptyString)))
  else String c EmptyString.

Fixpoint repr_body (quote : ascii) (s : string) : string :=
  match s with
  | EmptyString => EmptyString
  | String c r => (repr_char quote c ++ repr_body quote r)%string
  end.

Definition py_repr (s : string) : string :=
  let quote := repr_quote s in
  String quote (repr_body quote s ++ String quote EmptyString)%string.

(** The [ValueError] of [int]: its message shows the first 200 characters
    of the [repr] of the string. *)
Definition invalid_literal (s : string) : Exn :=
  ValueError
    [AStr ("invalid literal for int() with base 10: "
           ++ String.substring 0 200 (py_repr s))%string].

(** [int(s)] for an ASCII string [s]: surrounding white space, one optional
    sign, decimal digits, single underscores between digits; the value has
    no bound.  The model is of strings of ASCII characters: a string that
    holds a byte above 127 is rejected here, whereas [int] also reads the
    decimal digits and the white space of other scripts; what is stated of a
    rejection is stated of ASCII strings.  The cap on the length of a
    numeral that interpreters from 3.11 on apply is not modelled. *)
Definition py_int (s : string) : Exn + Z :=
  let body := rstrip (lstrip s) in
  let signed :=
    match body with
    | String "-" r => option_map (fun n => Z.opp (Z.of_N n)) (digits_value r)
    | String "+" r => option_map Z.of_N (digits_value r)
    | _ => option_map Z.of_N (digits_value body)
    end in
  match signed with
  | Some z => inr z
  | None => inl (invalid_literal s)
  end.

(** [str(n)] for an integer [n]: its decimal numeral, with a minus sign when
    negative. *)
Definition py_str (n : Z) : string := NilZero.string_of_int (Z.to_int n).

(** ** Results and the emission monad *)

Definition bind_result {A B : Type} (r : Exn + A) (k : A -> Exn + B)
  : Exn + B :=
  match r with
  | inl e => inl e
  | inr a => k a
  end.

Notation "'check' x <- r ; k" := (bind_result r (fun x => k))
  (at level 10, x name, r at level 100, k at level 200).

(** A method that is handed the code store: it returns or raises, and leaves
    a store behind in both cases. *)
Definition Emit (S A : Type) : Type := S -> S * (Exn + A).

Definition ret {S A : Type} (a : A) : Emit S A := fun s => (s, inr a).

Definition raise {S A : Type} (e : Exn) : Emit S A := fun s => (s, inl e).

Definition bind {S A B : Type} (m : Emit S A) (k : A -> Emit S B)
  : Emit S B :=
  fun s =>
    match m s with
    | (s', inl e) => (s', inl e)
    | (s', inr a) => k a s'
    end.

Notation "'do' x <- m ; k" := (bind m (fun x => k))
  (at level 10, x name, m at level 100, k at level 200).

Notation "m ;; k" := (bind m (fun _ => k))
  (at level 100, k at level 200, right associativity).

(** A step that only reads the store. *)
Definition reading {S A : Type} (f : S -> Exn + A) : Emit S A :=
  fun s => (s, f s).

(** A step that only updates the store. *)
Definition updating {S : Type} (f : S -> S) : Emit S unit :=
  fun s => (f s, inr tt).

(** ** Nodes *)

(** A class derived from [Node] other than the four of [ast.py] ("Inherit all
    AST nodes from this class"), described by what the walk can see of it:
    its [symbol], the writes its [make_code] makes to the code store and what
    that call then returns or raises.  Its instances have no attributes. *)
Record NodeClass : Type := mkNodeClass {
  class_name : string;
  class_symbol : string;
  class_writes : list Item;
  class_result : Exn + PyValue
}.

#[local] Set Warnings "-register-all".

Inductive Node : Type :=
| MainNode (statements : list Node)
| ReturnNode (return_value : Node)
| NumberNode (number : Token)
| BinaryOperatorNode (left_expr : Node) (operator : Token) (right_expr : Node)
| OtherNode (cls : NodeClass).

(** The class attribute [symbol]. *)
Definition symbol (node : Node) : string :=
  match node with
  | MainNode _ => "main_function"
  | ReturnNode _ => "statement"
  | NumberNode _ => "expression"
  | BinaryOperatorNode _ _ _ => "expression"
  | OtherNode c => class_symbol c
  end.

Definition assert_symbol (node : Node) (symbol_name : string) : Exn + unit :=
  if negb (String.eqb (symbol node) symbol_name)
  then inl (ValueError [AStr "malformed tree: expected symbol ";
                        AStr symbol_name; AStr ", got "; AStr (symbol node)])
  else inr tt.

Definition assert_kind (token : Token) (k : TokenKind) : Exn + unit :=
  if negb (TokenKind_eqb (kind token) k)
  then inl (ValueError [AStr "malformed tree: expected token kind ";
                        AKind k; AStr ", got "; AKind (kind token)])
  else inr tt.

(** ** The constructors *)

(** [for statement in statements: self.assert_symbol(statement, ...)] *)
Fixpoint assert_symbol_each (nodes : list Node) (symbol_name : string)
  : Exn + unit :=
  match nodes with
  | [] => inr tt
  | node :: rest =>
      check _ <- assert_symbol node symbol_name;
      assert_symbol_each rest symbol_name
  end.

Definition MainNode_init (statements : list Node) : Exn + Node :=
  check _ <- assert_symbol_each statements "statement";
  inr (MainNode statements).

Definition ReturnNode_init (return_value : Node) : Exn + Node :=
  check _ <- assert_symbol return_value "expression";
  inr (ReturnNode return_value).

Definition NumberNode_init (number_token : Token) : Exn + Node :=
  check _ <- assert_kind number_token number;
  inr (NumberNode number_token).

(** An object passed where [BinaryOperatorNode.__init__] expects the operator:
    a [Token], or something that is not one. *)
Inductive PyObject : Type :=
| OToken (t : Token)
| OStr (s : string)
| ONone.

(** [assert isinstance(operator, Token)] *)
Definition assert_isinstance_Token (o : PyObject) : Exn + Token :=
  match o with
  | OToken t => inr t
  | _ => inl AssertionError
  end.

Definition BinaryOperatorNode_init
  (left_expr : Node) (operator : PyObject) (right_expr : Node) : Exn + Node :=
  check _ <- assert_symbol left_expr "expression";
  check op <- assert_isinstance_Token operator;
  check _ <- assert_symbol right_expr "expression";
  inr (BinaryOperatorNode left_expr op right_expr).

(** ** [Node.__eq__] *)

Definition Item_eq_dec (a b : Item) : {a = b} + {a <> b}.
Proof.
  decide equality; [apply string_dec | apply (list_eq_dec string_dec)].
Defined.

Definition TokenKind_eq_dec (a b : TokenKind) : {a = b} + {a <> b}.
Proof. decide equality; apply string_dec. Defined.

Definition StorageType_eq_dec (a b : StorageType) : {a = b} + {a <> b}.
Proof. decide equality; apply Nat.eq_dec. Defined.

Definition PyValue_eq_dec (a b : PyValue) : {a = b} + {a <> b}.
Proof. decide equality; [apply string_dec | apply StorageType_eq_dec]. Defined.

Definition ExnArg_eq_dec (a b : ExnArg) : {a = b} + {a <> b}.
Proof. decide equality; [apply string_dec | apply TokenKind_eq_dec]. Defined.

Definition Exn_eq_dec (a b : Exn) : {a = b} + {a <> b}.
Proof. decide equality; apply (list_eq_dec ExnArg_eq_dec). Defined.

Definition result_eq_dec (a b : Exn + PyValue) : {a = b} + {a <> b}.
Proof. decide equality; [apply Exn_eq_dec | apply PyValue_eq_dec]. Defined.

(** [type(other) is type(self)] between two instances of other classes: the
    two classes are one and the same. *)
Definition NodeClass_eq_dec (a b : NodeClass) : {a = b} + {a <> b}.
Proof.
  decide equality;
    [apply result_eq_dec | apply (list_eq_dec Item_eq_dec)
     | apply string_dec | apply string_dec].
Defined.

(** [Node.__eq__]: the same class, then the instance dictionaries compared
    attribute by attribute with [==]: a list of statements element by
    element, a token with [Token.__eq__], a child with [Node.__eq__]. *)
Fixpoint Node_eq (self other : Node) {struct self} : bool :=
  match self, other with
  | MainNode xs, MainNode ys =>
      (fix list_eq (xs ys : list Node) {struct xs} : bool :=
         match xs, ys with
         | [], [] => true
         | x :: xs', y :: ys' => Node_eq x y && list_eq xs' ys'
         | _, _ => false
         end) xs ys
  | ReturnNode x, ReturnNode y => Node_eq x y
  | NumberNode s, NumberNode t => Token_eqb s t
  | BinaryOperatorNode l o r, BinaryOperatorNode l' o' r' =>
      Node_eq l l' && Token_eqb o o' && Node_eq r r'
  | OtherNode c, OtherNode c' => if NodeClass_eq_dec c c' then true else false
  | _, _ => false
  end.

(** ** Reading a value descriptor *)

(** [value.storage_type] and [value.storage_info]: [None] and the class
    [NotImplementedError] have no such attribute. *)
Definition storage_type_of (value : PyValue) : Exn + StorageType :=
  match value with
  | VValueInfo st _ => inr st
  | _ => inl AttributeError
  end.

Definition storage_info_of (value : PyValue) : Exn + string :=
  match value with
  | VValueInfo _ info => inr info
  | _ => inl AttributeError
  end.

(** ** [BinaryOperatorNode.add] and [BinaryOperatorNode.multiply]

    The [and] of the test is lazy: the right operand's storage type is read
    only once the left one is [LITERAL].  Neither method touches the code
    store it is handed. *)
Definition add (left_value right_value : PyValue) (code_store : CodeStore)
  : Exn + PyValue :=
  check lt <- storage_type_of left_value;
  if StorageType_eqb lt LITERAL then
    check rt <- storage_type_of right_value;
    if StorageType_eqb rt LITERAL then
      check li <- storage_info_of left_value;
      check a <- py_int li;
      check ri <- storage_info_of right_value;
      check b <- py_int ri;
      inr (VValueInfo LITERAL (py_str (a + b)))
    else inl NotImplementedError
  else inl NotImplementedError.

Definition multiply (left_value right_value : PyValue) (code_store : CodeStore)
  : Exn + PyValue :=
  check lt <- storage_type_of left_value;
  if StorageType_eqb lt LITERAL then
    check rt <- storage_type_of right_value;
    if StorageType_eqb rt LITERAL then
      check li <- storage_info_of left_value;
      check a <- py_int li;
      check ri <- storage_info_of right_value;
      check b <- py_int ri;
      inr (VValueInfo LITERAL (py_str (a * b)))
    else inr VNotImplementedError_class
  else inr VNotImplementedError_class.

(** ** The walk, with a log of its calls *)

(** What an observer of the walk sees: a [make_code] call entered, a write to
    the code store, a [make_code] call returning a value. *)
Inductive Event : Type :=
| Enter (node : Node)
| Write (item : Item)
| Leave (node : Node) (value : PyValue).

Definition Trace : Type := list Event.

Definition log (e : Event) : Emit Trace unit := updating (fun t => t ++ [e]).

(** The code store a trace has built: its writes, in order. *)
Fixpoint store_of (t : Trace) : CodeStore :=
  match t with
  | [] => []
  | Write item :: rest => item :: store_of rest
  | _ :: rest => store_of rest
  end.

(** The content of the tokens of the examples: the text of the operator. *)
Definition text_repr (k : TokenKind) : string :=
  match k with
  | number => ""
  | plus => "+"
  | star => "*"
  | other_kind name => name
  end.

(** A node of another class, whose value lives in a register. *)
Definition register_node : Node :=
  OtherNode (mkNodeClass "RegisterNode" "expression"
               [Command ["mov"; "rbx"; "7"]]
               (inr (VValueInfo (other_storage 0) "rbx"))).

(** The number literal with the given digits. *)
Definition literal (digits : string) : Node :=
  NumberNode (mkToken number digits).

Section Emission.

(** [Token(kind)]: the constructor of [tokens.py] called with a kind alone;
    the content it gives the token is a parameter of the development. *)
Variable default_content : TokenKind -> string.

Definition Token_of_kind (k : TokenKind) : Token :=
  mkToken k (default_content k).

(** ** [make_code] *)

Fixpoint make_code (self : Node) : Emit CodeStore PyValue :=
  match self with
  | MainNode statements =>
      updating (add_label "main") ;;
      updating (add_command ["push"; "rbp"]) ;;
      updating (add_command ["mov"; "rbp"; "rsp"]) ;;
      (fix each (l : list Node) : Emit CodeStore unit :=
         match l with
         | [] => ret tt
         | statement :: rest => make_code statement ;; each rest
         end) statements ;;
      updating (add_command ["mov"; "rax"; "0"]) ;;
      updating (add_command ["pop"; "rbp"]) ;;
      updating (add_command ["ret"]) ;;
      ret VNone
  | ReturnNode return_value =>
      do value_info <- make_code return_value;
      do st <- reading (fun _ => storage_type_of value_info);
      if StorageType_eqb st LITERAL then
        do info <- reading (fun _ => storage_info_of value_info);
        updating (add_command ["mov"; "rax"; info]) ;;
        updating (add_command ["pop"; "rbp"]) ;;
        updating (add_command ["ret"]) ;;
        ret VNone
      else raise NotImplementedError
  | NumberNode number_token =>
      ret (VValueInfo LITERAL (content number_token))
  | BinaryOperatorNode left_expr operator right_expr =>
      do left_value <- make_code left_expr;
      do right_value <- make_code right_expr;
      if Token_eqb operator (Token_of_kind plus) then
        reading (add left_value right_value)
      else if Token_eqb operator (Token_of_kind star) then
        reading (multiply left_value right_value)
      else raise NotImplementedError
  | OtherNode c =>
      updating (fun cs => cs ++ class_writes c) ;;
      reading (fun _ => class_result c)
  end.

(** [for statement in self.statements: statement.make_code(code_store)] *)
Fixpoint make_code_each (statements : list Node) : Emit CodeStore unit :=
  match statements with
  | [] => ret tt
  | statement :: rest => make_code statement ;; make_code_each rest
  end.

(** A call under observation: it logs its entry and, when it returns, the
    value. *)
Definition observed (self : Node) (body : Emit Trace PyValue)
  : Emit Trace PyValue :=
  log (Enter self) ;;
  do value <- body;
  log (Leave self value) ;;
  ret value.

(** The same walk under observation: every call is observed, every write to
    the code store is logged. *)
Fixpoint make_code_traced (self : Node) : Emit Trace PyValue :=
  observed self
    (match self with
    | MainNode statements =>
        log (Write (Label "main")) ;;
        log (Write (Command ["push"; "rbp"])) ;;
        log (Write (Command ["mov"; "rbp"; "rsp"])) ;;
        (fix each (l : list Node) : Emit Trace unit :=
           match l with
           | [] => ret tt
           | statement :: rest => make_code_traced statement ;; each rest
           end) statements ;;
        log (Write (Command ["mov"; "rax"; "0"])) ;;
        log (Write (Command ["pop"; "rbp"])) ;;
        log (Write (Command ["ret"])) ;;
        ret VNone
    | ReturnNode return_value =>
        do value_info <- make_code_traced return_value;
        do st <- reading (fun _ => storage_type_of value_info);
        if StorageType_eqb st LITERAL then
          do info <- reading (fun _ => storage_info_of value_info);
          log (Write (Command ["mov"; "rax"; info])) ;;
          log (Write (Command ["pop"; "rbp"])) ;;
          log (Write (Command ["ret"])) ;;
          ret VNone
        else raise NotImplementedError
    | NumberNode number_token =>
        ret (VValueInfo LITERAL (content number_token))
    | BinaryOperatorNode left_expr operator right_expr =>
        do left_value <- make_code_traced left_expr;
        do right_value <- make_code_traced right_expr;
        if Token_eqb operator (Token_of_kind plus) then
          reading (fun t => add left_value right_value (store_of t))
        else if Token_eqb operator (Token_of_kind star) then
          reading (fun t => multiply left_value right_value (store_of t))
        else raise NotImplementedError
    | OtherNode c =>
        updating (fun t => t ++ map Write (class_writes c)) ;;
        reading (fun _ => class_result c)
    end).

Fixpoint make_code_traced_each (statements : list Node) : Emit Trace unit :=
  match statements with
  | [] => ret tt
  | statement :: rest =>
      make_code_traced statement ;; make_code_traced_each rest
  end.

(** A tree of [NumberNode] leaves and [BinaryOperatorNode] nodes whose
    operator is dispatched to [add] or to [multiply]. *)
Fixpoint literal_tree (node : Node) : bool :=
  match node with
  | NumberNode _ => true
  | BinaryOperatorNode left_expr operator right_expr =>
      literal_tree left_expr
      && (Token_eqb operator (Token_of_kind plus)
          || Token_eqb operator (Token_of_kind star))
      && literal_tree right_expr
  | _ => false
  end.

(** What the operator test decides, once both operands have returned. *)
Definition dispatch (operator : Token) (left_value right_value : PyValue)
  : Exn + PyValue :=
  if Token_eqb operator (Token_of_kind plus)
  then add left_value right_value []
  else if Token_eqb operator (Token_of_kind star)
       then multiply left_value right_value []
       else inl NotImplementedError.

(** What one call on a node writes and hands back, seen from an empty store
    and from an empty log. *)
Definition written (node : Node) : list Item := fst (make_code node []).

Definition outcome (node : Node) : Exn + PyValue := snd (make_code node []).

Definition trace_of (node : Node) : Trace := fst (make_code_traced node []).

(** The error of [assert_symbol] and [assert_kind]: a [ValueError] whose
    message starts with "malformed tree". *)
Definition malformed_tree (e : Exn) : bool :=
  match e with
  | ValueError (AStr msg :: _) => String.prefix "malformed tree" msg
  | _ => false
  end.

(** ** Arithmetic trees and what they denote *)

(** A payload that [int] reads. *)
Definition is_numeral (s : string) : bool :=
  match py_int s with
  | inr _ => true
  | inl _ => false
  end.

(** Every number token below the node carries a numeral. *)
Fixpoint numeral_leaves (node : Node) : bool :=
  match node with
  | NumberNode number_token => is_numeral (content number_token)
  | BinaryOperatorNode left_expr _ right_expr =>
      numeral_leaves left_expr && numeral_leaves right_expr
  | _ => false
  end.

(** A string of ASCII characters, and a tree whose number tokens all carry
    such strings. *)
Fixpoint ascii_only (s : string) : bool :=
  match s with
  | EmptyString => true
  | String c r => (nat_of_ascii c <? 128)%nat && ascii_only r
  end.

Fixpoint ascii_leaves (node : Node) : bool :=
  match node with
  | NumberNode number_token => ascii_only (content number_token)
  | BinaryOperatorNode left_expr _ right_expr =>
      ascii_leaves left_expr && ascii_leaves right_expr
  | _ => false
  end.

(** The integer an arithmetic tree stands for: the reference the folding is
    compared with. *)
Fixpoint value_of (node : Node) : Z :=
  match node with
  | NumberNode number_token =>
      match py_int (content number_token) with
      | inr z => z
      | inl _ => 0
      end
  | BinaryOperatorNode left_expr operator right_expr =>
      if Token_eqb operator (Token_of_kind plus)
      then value_of left_expr + value_of right_expr
      else value_of left_expr * value_of right_expr
  | _ => 0
  end.

(** The payload the walk hands back for an arithmetic tree: the text of a
    lone number token, the numeral of the value otherwise. *)
Definition folded_payload (node : Node) : string :=
  match node with
  | NumberNode number_token => content number_token
  | _ => py_str (value_of node)
  end.

(** The three commands of a return. *)
Definition return_sequence (payload : string) : list Item :=
  [Command ["mov"; "rax"; payload]; Command ["pop"; "rbp"]; Command ["ret"]].

(** A tree of the four classes of [ast.py] that their constructors accept at
    every node: each child has the symbol its parent asks for, each number
    token the kind [number]. *)
Fixpoint accepted (node : Node) : bool :=
  match node with
  | MainNode statements =>
      (fix each (l : list Node) : bool :=
         match l with
         | [] => true
         | statement :: rest =>
             String.eqb (symbol statement) "statement"
             && accepted statement && each rest
         end) statements
  | ReturnNode return_value =>
      String.eqb (symbol return_value) "expression" && accepted return_value
  | NumberNode number_token => TokenKind_eqb (kind number_token) number
  | BinaryOperatorNode left_expr _ right_expr =>
      String.eqb (symbol left_expr) "expression" && accepted left_expr
      && String.eqb (symbol right_expr) "expression" && accepted right_expr
  | OtherNode _ => false
  end.

(** The exceptions the walk of an accepted tree can end in: the one of [int]
    and the one of an operator that is neither plus nor star. *)
Definition expected_failure (e : Exn) : Prop :=
  (exists s, e = invalid_literal s) \/ e = NotImplementedError.

(** ** Two properties of steps *)

(** A step that only appends: what it adds to the store and what it hands
    back do not depend on the store it starts from. *)
Definition appends {X A : Type} (m : Emit (list X) A) : Prop :=
  forall s, m s = (s ++ fst (m []), snd (m [])).

(** An observed step [mt] does to the code store of its log what the plain
    step [m] does to the code store, and hands back the same. *)
Definition erases_to {A : Type} (mt : Emit Trace A) (m : Emit CodeStore A)
  : Prop :=
  forall t, m (store_of t) = (store_of (fst (mt t)), snd (mt t)).

(** * Properties *)

(** ** Numerals: [int] reads back what [str] prints *)

Lemma lstrip_numeral (d : uint) :
  lstrip (NilEmpty.string_of_uint d) = NilEmpty.string_of_uint d.
Proof. destruct d; reflexivity. Qed.

Lemma rstrip_numeral (d : uint) :
  rstrip (NilEmpty.string_of_uint d) = NilEmpty.string_of_uint d.
Proof.
  induction d; simpl; try reflexivity; rewrite IHd;
    destruct d; reflexivity.
Qed.

Lemma drop_underscores_numeral (d : uint) :
  drop_underscores true (NilEmpty.string_of_uint d)
  = Some (NilEmpty.string_of_uint d).
Proof.
  induction d; simpl; try reflexivity; rewrite IHd; reflexivity.
Qed.

Lemma digits_value_numeral (d : uint) :
  d <> Nil -> digits_value (NilEmpty.string_of_uint d) = Some (N.of_uint d).
Proof.
  intros Hd. unfold digits_value.
  assert (E : drop_underscores false (NilEmpty.string_of_uint d)
              = Some (NilEmpty.string_of_uint d)).
  { destruct d; try congruence; simpl;
      rewrite drop_underscores_numeral; reflexivity. }
  rewrite E, NilEmpty.usu. reflexivity.
Qed.

Lemma py_int_numeral (d : uint) :
  d <> Nil ->
  py_int (NilEmpty.string_of_uint d) = inr (Z.of_N (N.of_uint d)).
Proof.
  intros Hd. unfold py_int.
  rewrite lstrip_numeral, rstrip_numeral.
  pose proof (digits_value_numeral d Hd) as E.
  destruct d; try congruence; cbn [NilEmpty.string_of_uint] in *;
    cbv match; rewrite E; reflexivity.
Qed.

Lemma py_int_minus_numeral (d : uint) :
  d <> Nil ->
  py_int (String "-" (NilEmpty.string_of_uint d))
  = inr (- Z.of_N (N.of_uint d)).
Proof.
  intros Hd. unfold py_int.
  assert (E : rstrip (lstrip (String "-" (NilEmpty.string_of_uint d)))
              = String "-" (NilEmpty.string_of_uint d)).
  { cbn [lstrip]. change (is_space "-") with false. cbv iota.
    cbn [rstrip]. rewrite rstrip_numeral.
    destruct d; try congruence; reflexivity. }
  rewrite E. cbv match.
  rewrite (digits_value_numeral d Hd). reflexivity.
Qed.

Lemma string_of_uint_nonnil (d : uint) :
  d <> Nil -> NilZero.string_of_uint d = NilEmpty.string_of_uint d.
Proof. destruct d; [congruence | reflexivity ..]. Qed.

Lemma py_int_py_str (n : Z) : py_int (py_str n) = inr n.
Proof.
  unfold py_str. destruct n as [|p|p]; cbn [Z.to_int NilZero.string_of_int].
  - reflexivity.
  - pose proof (Unsigned.to_uint_nonnil p) as Hd.
    rewrite (string_of_uint_nonnil _ Hd).
    rewrite (py_int_numeral _ Hd). unfold N.of_uint.
    rewrite DecimalPos.Unsigned.of_to. reflexivity.
  - pose proof (Unsigned.to_uint_nonnil p) as Hd.
    rewrite (string_of_uint_nonnil _ Hd).
    rewrite (py_int_minus_numeral _ Hd). unfold N.of_uint.
    rewrite DecimalPos.Unsigned.of_to. reflexivity.
Qed.

(** ** Token equality decides equality *)

Lemma TokenKind_eqb_eq (a b : TokenKind) : TokenKind_eqb a b = true <-> a = b.
Proof.
  destruct a, b; simpl; split; intros H;
    try reflexivity; try discriminate.
  - apply String.eqb_eq in H. congruence.
  - injection H as ->. apply String.eqb_refl.
Qed.

Lemma Token_eqb_eq (a b : Token) : Token_eqb a b = true <-> a = b.
Proof.
  unfold Token_eqb. rewrite andb_true_iff, TokenKind_eqb_eq, String.eqb_eq.
  destruct a, b; simpl. split.
  - intros [-> ->]. reflexivity.
  - intros H. injection H as -> ->. split; reflexivity.
Qed.

Lemma Token_eqb_refl (a : Token) : Token_eqb a a = true.
Proof. apply Token_eqb_eq. reflexivity. Qed.

(** ** Induction on nodes, through the statement lists *)

Lemma Node_nested_ind (P : Node -> Prop)
  (HMain : forall statements, Forall P statements -> P (MainNode statements))
  (HReturn : forall return_value,
      P return_value -> P (ReturnNode return_value))
  (HNumber : forall number_token, P (NumberNode number_token))
  (HBinary : forall left_expr operator right_expr,
      P left_expr -> P right_expr ->
      P (BinaryOperatorNode left_expr operator right_expr))
  (HOther : forall c, P (OtherNode c)) :
  forall node, P node.
Proof.
  fix IH 1. intros [statements | return_value | t | l op r | c].
  - apply HMain. revert statements. fix IHl 1. intros [| s rest].
    + constructor.
    + constructor; [apply IH | apply IHl].
  - apply HReturn, IH.
  - apply HNumber.
  - apply HBinary; apply IH.
  - apply HOther.
Qed.

(** ** Structural equality *)

Lemma Node_eq_list (xs : list Node) :
  Forall (fun x => forall y, Node_eq x y = true <-> x = y) xs ->
  forall ys, Node_eq (MainNode xs) (MainNode ys) = true <-> xs = ys.
Proof.
  induction 1 as [| x xs Hx _ IH]; intros [| y ys]; simpl.
  - split; reflexivity.
  - split; discriminate.
  - split; discriminate.
  - rewrite andb_true_iff, Hx. simpl in IH. rewrite IH. split.
    + intros [-> ->]. reflexivity.
    + intros E. injection E as -> ->. split; reflexivity.
Qed.

(** C10. [Node.__eq__] answers [True] exactly when the two nodes are the same
    tree: built by the same constructor (the same class) from equal fields,
    the child nodes compared in the same way, a token by kind and content, a
    statement list element by element.  Two trees built apart with the same
    shape and field values are equal; a difference in any field or in the
    class makes them unequal. *)
Theorem Node_eq_structural (a b : Node) : Node_eq a b = true <-> a = b.
Proof.
  revert b. induction a as [xs IH | x IH | s | l o r IHl IHr | c]
    using Node_nested_ind; intros b.
  - destruct b as [ys | | | |]; try (split; discriminate).
    rewrite (Node_eq_list xs IH ys). split; congruence.
  - destruct b as [| y | | |]; try (split; discriminate).
    simpl. rewrite IH. split; congruence.
  - destruct b as [| | t | |]; try (split; discriminate).
    simpl. rewrite Token_eqb_eq. split; congruence.
  - destruct b as [| | | l' o' r' |]; try (split; discriminate).
    simpl. rewrite !andb_true_iff, IHl, IHr, Token_eqb_eq. split.
    + intros [[-> ->] ->]. reflexivity.
    + intros E. injection E as -> -> ->. repeat split.
  - destruct b as [| | | | c']; try (split; discriminate).
    simpl. destruct (NodeClass_eq_dec c c') as [-> | Hne].
    + split; reflexivity.
    + split; [discriminate | congruence].
Qed.

(** ** The constructors *)

Lemma assert_symbol_ok (node : Node) (symbol_name : string) :
  symbol node = symbol_name -> assert_symbol node symbol_name = inr tt.
Proof.
  intros <-. unfold assert_symbol. rewrite String.eqb_refl. reflexivity.
Qed.

Lemma assert_symbol_fails (node : Node) (symbol_name : string) :
  symbol node <> symbol_name ->
  assert_symbol node symbol_name
  = inl (ValueError [AStr "malformed tree: expected symbol ";
                     AStr symbol_name; AStr ", got "; AStr (symbol node)]).
Proof.
  intros Hne. unfold assert_symbol.
  destruct (String.eqb_spec (symbol node) symbol_name); [contradiction |].
  reflexivity.
Qed.

Lemma assert_kind_ok (token : Token) (k : TokenKind) :
  kind token = k -> assert_kind token k = inr tt.
Proof.
  intros <-. unfold assert_kind.
  rewrite (proj2 (TokenKind_eqb_eq _ _) eq_refl). reflexivity.
Qed.

Lemma assert_kind_fails (token : Token) (k : TokenKind) :
  kind token <> k ->
  assert_kind token k
  = inl (ValueError [AStr "malformed tree: expected token kind ";
                     AKind k; AStr ", got "; AKind (kind token)]).
Proof.
  intros Hne. unfold assert_kind.
  destruct (TokenKind_eqb (kind token) k) eqn:E.
  - apply TokenKind_eqb_eq in E. contradiction.
  - reflexivity.
Qed.

Lemma assert_symbol_each_ok (nodes : list Node) (symbol_name : string) :
  Forall (fun node => symbol node = symbol_name) nodes ->
  assert_symbol_each nodes symbol_name = inr tt.
Proof.
  induction 1 as [| node rest Hnode _ IH]; simpl.
  - reflexivity.
  - rewrite (assert_symbol_ok _ _ Hnode). exact IH.
Qed.

Lemma assert_symbol_each_fails (nodes : list Node) (symbol_name : string) :
  Exists (fun node => symbol node <> symbol_name) nodes ->
  exists e, assert_symbol_each nodes symbol_name = inl e
            /\ malformed_tree e = true.
Proof.
  induction 1 as [node rest Hnode | node rest _ IH]; simpl.
  - rewrite (assert_symbol_fails _ _ Hnode). simpl.
    eexists. split; reflexivity.
  - destruct (string_dec (symbol node) symbol_name) as [E | Hne].
    + rewrite (assert_symbol_ok _ _ E). exact IH.
    + rewrite (assert_symbol_fails _ _ Hne). simpl.
      eexists. split; reflexivity.
Qed.

(** C6. The constructors check their direct children: [ReturnNode] raises
    the malformed-tree error when its child's symbol is not "expression",
    [NumberNode] when its token's kind is not [number], [MainNode] when one
    of its elements has a symbol other than "statement"; with matching
    symbols and kinds each of them builds the node. *)
Theorem constructors_validate_children :
  (forall child,
      (symbol child <> "expression" ->
       exists e, ReturnNode_init child = inl e /\ malformed_tree e = true)
      /\ (symbol child = "expression" ->
          ReturnNode_init child = inr (ReturnNode child)))
  /\ (forall token,
      (kind token <> number ->
       exists e, NumberNode_init token = inl e /\ malformed_tree e = true)
      /\ (kind token = number ->
          NumberNode_init token = inr (NumberNode token)))
  /\ (forall statements,
      (Exists (fun s => symbol s <> "statement") statements ->
       exists e, MainNode_init statements = inl e /\ malformed_tree e = true)
      /\ (Forall (fun s => symbol s = "statement") statements ->
          MainNode_init statements = inr (MainNode statements))).
Proof.
  repeat split.
  - intros Hne. unfold ReturnNode_init.
    rewrite (assert_symbol_fails _ _ Hne). eexists. split; reflexivity.
  - intros E. unfold ReturnNode_init.
    rewrite (assert_symbol_ok _ _ E). reflexivity.
  - intros Hne. unfold NumberNode_init.
    rewrite (assert_kind_fails _ _ Hne). eexists. split; reflexivity.
  - intros E. unfold NumberNode_init.
    rewrite (assert_kind_ok _ _ E). reflexivity.
  - intros Hex. unfold MainNode_init.
    destruct (assert_symbol_each_fails _ _ Hex) as (e & -> & He).
    exists e. split; [reflexivity | exact He].
  - intros Hall. unfold MainNode_init.
    rewrite (assert_symbol_each_ok _ _ Hall). reflexivity.
Qed.

Lemma constructors_validate_children_witness :
  (exists e, ReturnNode_init (ReturnNode (NumberNode (mkToken number "1")))
             = inl e /\ malformed_tree e = true)
  /\ ReturnNode_init (NumberNode (mkToken number "1"))
     = inr (ReturnNode (NumberNode (mkToken number "1")))
  /\ (exists e, NumberNode_init (mkToken plus "+") = inl e
                /\ malformed_tree e = true)
  /\ NumberNode_init (mkToken number "7")
     = inr (NumberNode (mkToken number "7"))
  /\ (exists e, MainNode_init [ReturnNode (NumberNode (mkToken number "1"));
                               NumberNode (mkToken number "2")] = inl e
                /\ malformed_tree e = true)
  /\ MainNode_init [ReturnNode (NumberNode (mkToken number "1"))]
     = inr (MainNode [ReturnNode (NumberNode (mkToken number "1"))]).
Proof.
  destruct constructors_validate_children as (HR & HN & HM).
  split; [| split; [| split; [| split; [| split]]]].
  - apply (proj1 (HR _)). simpl. discriminate.
  - apply (proj2 (HR _)). reflexivity.
  - apply (proj1 (HN _)). simpl. discriminate.
  - apply (proj2 (HN _)). reflexivity.
  - apply (proj1 (HM _)). apply Exists_cons_tl, Exists_cons_hd.
    simpl. discriminate.
  - apply (proj2 (HM _)). constructor; [reflexivity | constructor].
Defined.

(** C5, as the code has it.  [BinaryOperatorNode.__init__] checks that both
    operands have the symbol "expression" (malformed-tree error otherwise)
    and that the operator is a [Token] (assertion failure otherwise); it does
    not look at the token's kind: between two expressions, a token of any
    kind builds the node. *)
Theorem BinaryOperatorNode_init_checks
  (left_expr right_expr : Node) (operator : PyObject) :
  (symbol left_expr <> "expression" ->
   exists e, BinaryOperatorNode_init left_expr operator right_expr = inl e
             /\ malformed_tree e = true)
  /\ (symbol left_expr = "expression" ->
      (forall t, operator <> OToken t) ->
      BinaryOperatorNode_init left_expr operator right_expr
      = inl AssertionError)
  /\ (symbol left_expr = "expression" ->
      forall t, operator = OToken t ->
      (symbol right_expr <> "expression" ->
       exists e, BinaryOperatorNode_init left_expr operator right_expr = inl e
                 /\ malformed_tree e = true)
      /\ (symbol right_expr = "expression" ->
          BinaryOperatorNode_init left_expr operator right_expr
          = inr (BinaryOperatorNode left_expr t right_expr))).
Proof.
  unfold BinaryOperatorNode_init. repeat split.
  - intros Hl. rewrite (assert_symbol_fails _ _ Hl).
    eexists. split; reflexivity.
  - intros Hl Hop. rewrite (assert_symbol_ok _ _ Hl). simpl.
    destruct operator as [t | s |]; [destruct (Hop t eq_refl) | |];
      reflexivity.
  - intros Hr. subst operator. rewrite (assert_symbol_ok _ _ H). simpl.
    rewrite (assert_symbol_fails _ _ Hr). eexists. split; reflexivity.
  - intros Hr. subst operator. rewrite (assert_symbol_ok _ _ H). simpl.
    rewrite (assert_symbol_ok _ _ Hr). reflexivity.
Qed.

Lemma BinaryOperatorNode_init_checks_witness :
  (exists e,
      BinaryOperatorNode_init (ReturnNode (NumberNode (mkToken number "1")))
        (OToken (mkToken plus "+")) (NumberNode (mkToken number "2")) = inl e
      /\ malformed_tree e = true)
  /\ BinaryOperatorNode_init (NumberNode (mkToken number "1")) (OStr "+")
       (NumberNode (mkToken number "2")) = inl AssertionError
  /\ (exists e,
      BinaryOperatorNode_init (NumberNode (mkToken number "1"))
        (OToken (mkToken plus "+")) (ReturnNode (NumberNode (mkToken number "2")))
      = inl e /\ malformed_tree e = true)
  /\ BinaryOperatorNode_init (NumberNode (mkToken number "1"))
       (OToken (mkToken (other_kind "minus") "-"))
       (NumberNode (mkToken number "2"))
     = inr (BinaryOperatorNode (NumberNode (mkToken number "1"))
              (mkToken (other_kind "minus") "-")
              (NumberNode (mkToken number "2"))).
Proof.
  split; [| split; [| split]].
  - apply (proj1 (BinaryOperatorNode_init_checks _ _ _)).
    simpl. discriminate.
  - apply (proj1 (proj2 (BinaryOperatorNode_init_checks _ _ _)));
      [reflexivity | discriminate].
  - apply (proj1 (proj2 (proj2 (BinaryOperatorNode_init_checks
                                  (NumberNode (mkToken number "1"))
                                  (ReturnNode (NumberNode (mkToken number "2")))
                                  (OToken (mkToken plus "+"))))
                   eq_refl (mkToken plus "+") eq_refl)).
    simpl. discriminate.
  - apply (proj2 (proj2 (proj2 (BinaryOperatorNode_init_checks
                                  (NumberNode (mkToken number "1"))
                                  (NumberNode (mkToken number "2"))
                                  (OToken (mkToken (other_kind "minus") "-"))))
                   eq_refl (mkToken (other_kind "minus") "-") eq_refl)).
    reflexivity.
Defined.

(** C5, as it is stated, fails: a token whose kind is neither [plus] nor
    [star] is accepted as the operator. *)
Lemma BinaryOperatorNode_init_accepts_any_kind :
  let operator := mkToken number "7" in
  kind operator <> plus /\ kind operator <> star
  /\ BinaryOperatorNode_init (NumberNode (mkToken number "1"))
       (OToken operator) (NumberNode (mkToken number "2"))
     = inr (BinaryOperatorNode (NumberNode (mkToken number "1")) operator
              (NumberNode (mkToken number "2"))).
Proof. repeat split; discriminate. Qed.

(** ** Steps that only append *)

Section Appends.

Context {X : Type}.

Lemma appends_ret {A : Type} (a : A) : appends (X := X) (ret a).
Proof. intros s. unfold ret. simpl. rewrite app_nil_r. reflexivity. Qed.

Lemma appends_raise {A : Type} (e : Exn) : appends (X := X) (A := A) (raise e).
Proof. intros s. unfold raise. simpl. rewrite app_nil_r. reflexivity. Qed.

Lemma appends_reading {A : Type} (r : Exn + A) :
  appends (X := X) (reading (fun _ => r)).
Proof. intros s. unfold reading. simpl. rewrite app_nil_r. reflexivity. Qed.

Lemma appends_updating (w : list X) : appends (updating (fun s => s ++ w)).
Proof. intros s. reflexivity. Qed.

Lemma appends_bind {A B : Type} (m : Emit (list X) A)
  (k : A -> Emit (list X) B) :
  appends m -> (forall a, appends (k a)) -> appends (bind m k).
Proof.
  intros Hm Hk s. unfold bind. rewrite (Hm s).
  destruct (m []) as [w [e | a]]; simpl.
  - reflexivity.
  - rewrite (Hk a (s ++ w)), (Hk a w). simpl.
    rewrite app_assoc. reflexivity.
Qed.

End Appends.

Ltac appends_steps :=
  repeat first
    [ apply appends_ret
    | apply appends_raise
    | apply appends_updating
    | apply appends_reading
    | assumption
    | apply appends_bind; [| intros ?]
    | match goal with
      | |- appends (if ?c then _ else _) => destruct c
      end ].

Lemma make_code_each_appends (statements : list Node) :
  Forall (fun s => appends (make_code s)) statements ->
  appends (make_code_each statements).
Proof.
  induction 1; simpl; appends_steps.
Qed.

Lemma make_code_MainNode (statements : list Node) :
  make_code (MainNode statements)
  = (updating (add_label "main") ;;
     updating (add_command ["push"; "rbp"]) ;;
     updating (add_command ["mov"; "rbp"; "rsp"]) ;;
     make_code_each statements ;;
     updating (add_command ["mov"; "rax"; "0"]) ;;
     updating (add_command ["pop"; "rbp"]) ;;
     updating (add_command ["ret"]) ;;
     ret VNone).
Proof.
  reflexivity.
Qed.

Lemma make_code_appends (node : Node) : appends (make_code node).
Proof.
  induction node as [xs IH | x IH | s | l o r IHl IHr | c]
    using Node_nested_ind.
  - rewrite make_code_MainNode. unfold add_label, add_command.
    pose proof (make_code_each_appends xs IH). appends_steps.
  - simpl. unfold add_command. appends_steps.
  - simpl. appends_steps.
  - simpl. appends_steps.
  - simpl. appends_steps.
Qed.

(** Every call leaves the store it was handed, followed by its own writes. *)
Lemma make_code_frame (node : Node) (cs : CodeStore) :
  make_code node cs = (cs ++ written node, outcome node).
Proof. apply make_code_appends. Qed.

Lemma make_code_returns (node : Node) (cs cs' : CodeStore) (r : Exn + PyValue) :
  make_code node cs = (cs', r) -> cs' = cs ++ written node /\ r = outcome node.
Proof.
  rewrite make_code_frame. intros E. injection E as <- <-. split; reflexivity.
Qed.

(** ** The operator tests of [BinaryOperatorNode.make_code] *)

Lemma dispatch_iff (operator : Token) (k : TokenKind) :
  Token_eqb operator (Token_of_kind k) = true
  <-> kind operator = k /\ content operator = default_content k.
Proof.
  rewrite Token_eqb_eq. unfold Token_of_kind. destruct operator; simpl. split.
  - intros E. injection E as -> ->. split; reflexivity.
  - intros [-> ->]. reflexivity.
Qed.

Lemma star_is_not_plus :
  Token_eqb (Token_of_kind star) (Token_of_kind plus) = false.
Proof. reflexivity. Qed.

(** ** Numeric literals *)

(** C7. [NumberNode.make_code] hands back a [LITERAL] descriptor whose
    payload is the content of the token, as it is, and leaves the code store
    as it found it: no label, no command.  Under observation the call logs
    its entry and its return and no write. *)
Theorem NumberNode_make_code (number_token : Token) (cs : CodeStore)
  (t : Trace) :
  make_code (NumberNode number_token) cs
  = (cs, inr (VValueInfo LITERAL (content number_token)))
  /\ make_code_traced (NumberNode number_token) t
     = (t ++ [Enter (NumberNode number_token);
              Leave (NumberNode number_token)
                (VValueInfo LITERAL (content number_token))],
        inr (VValueInfo LITERAL (content number_token)))
  /\ store_of (fst (make_code_traced (NumberNode number_token) t))
     = store_of t.
Proof.
  split; [reflexivity |].
  assert (E : make_code_traced (NumberNode number_token) t
              = (t ++ [Enter (NumberNode number_token);
                       Leave (NumberNode number_token)
                         (VValueInfo LITERAL (content number_token))],
                 inr (VValueInfo LITERAL (content number_token)))).
  { cbn [make_code_traced]. unfold observed, bind, log, updating, ret.
    rewrite <- app_assoc. reflexivity. }
  split; [exact E |].
  rewrite E. cbn [fst]. clear E.
  induction t as [| [n | i | n v] t IH]; simpl; rewrite ?IH; reflexivity.
Qed.

(** ** Folding *)

Lemma add_literals (pa pb : string) (a b : Z) (cs : CodeStore) :
  py_int pa = inr a -> py_int pb = inr b ->
  add (VValueInfo LITERAL pa) (VValueInfo LITERAL pb) cs
  = inr (VValueInfo LITERAL (py_str (a + b))).
Proof. intros Ha Hb. unfold add. simpl. rewrite Ha. simpl. rewrite Hb. reflexivity. Qed.

Lemma multiply_literals (pa pb : string) (a b : Z) (cs : CodeStore) :
  py_int pa = inr a -> py_int pb = inr b ->
  multiply (VValueInfo LITERAL pa) (VValueInfo LITERAL pb) cs
  = inr (VValueInfo LITERAL (py_str (a * b))).
Proof.
  intros Ha Hb. unfold multiply. simpl. rewrite Ha. simpl. rewrite Hb.
  reflexivity.
Qed.

Lemma make_code_BinaryOperatorNode
  (left_expr right_expr : Node) (operator : Token)
  (cs cs1 cs2 : CodeStore) (left_value right_value : PyValue) :
  make_code left_expr cs = (cs1, inr left_value) ->
  make_code right_expr cs1 = (cs2, inr right_value) ->
  make_code (BinaryOperatorNode left_expr operator right_expr) cs
  = (cs2,
     if Token_eqb operator (Token_of_kind plus)
     then add left_value right_value cs2
     else if Token_eqb operator (Token_of_kind star)
          then multiply left_value right_value cs2
          else inl NotImplementedError).
Proof.
  intros Hl Hr. simpl. unfold bind. rewrite Hl, Hr.
  destruct (Token_eqb operator (Token_of_kind plus)); [reflexivity |].
  destruct (Token_eqb operator (Token_of_kind star)); reflexivity.
Qed.

(** C1, as the code has it.  When the two operands hand back [LITERAL]
    descriptors whose payloads read as the integers [a] and [b], a
    [BinaryOperatorNode] whose operator equals the token the code compares
    it with, [Token(token_kinds.plus)] (the kind [plus] and the content the
    constructor gives), hands back the [LITERAL] descriptor of the numeral of
    [a + b], and one whose operator equals [Token(token_kinds.star)] that of
    [a * b]; the sum and the product are those of the integers, without
    bound.  The store is the one the operands left. *)
Theorem BinaryOperatorNode_folds
  (left_expr right_expr : Node) (operator : Token) (cs cs1 cs2 : CodeStore)
  (pa pb : string) (a b : Z) :
  make_code left_expr cs = (cs1, inr (VValueInfo LITERAL pa)) ->
  make_code right_expr cs1 = (cs2, inr (VValueInfo LITERAL pb)) ->
  py_int pa = inr a ->
  py_int pb = inr b ->
  (kind operator = plus -> content operator = default_content plus ->
   make_code (BinaryOperatorNode left_expr operator right_expr) cs
   = (cs2, inr (VValueInfo LITERAL (py_str (a + b)))))
  /\ (kind operator = star -> content operator = default_content star ->
      make_code (BinaryOperatorNode left_expr operator right_expr) cs
      = (cs2, inr (VValueInfo LITERAL (py_str (a * b))))).
Proof.
  intros Hl Hr Ha Hb.
  rewrite (make_code_BinaryOperatorNode _ _ _ _ _ _ _ _ Hl Hr).
  split; intros Hk Hc.
  - rewrite (proj2 (dispatch_iff operator plus) (conj Hk Hc)).
    rewrite (add_literals _ _ _ _ _ Ha Hb). reflexivity.
  - pose proof (proj2 (dispatch_iff operator star) (conj Hk Hc)) as Hs.
    rewrite Hs. apply Token_eqb_eq in Hs. rewrite Hs at 1.
    rewrite star_is_not_plus, (multiply_literals _ _ _ _ _ Ha Hb).
    reflexivity.
Qed.

(** Every numeral [str] prints is such a payload. *)
Lemma BinaryOperatorNode_folds_numerals
  (left_expr right_expr : Node) (cs cs1 cs2 : CodeStore) (a b : Z) :
  make_code left_expr cs = (cs1, inr (VValueInfo LITERAL (py_str a))) ->
  make_code right_expr cs1 = (cs2, inr (VValueInfo LITERAL (py_str b))) ->
  make_code (BinaryOperatorNode left_expr (Token_of_kind plus) right_expr) cs
  = (cs2, inr (VValueInfo LITERAL (py_str (a + b))))
  /\ make_code (BinaryOperatorNode left_expr (Token_of_kind star) right_expr) cs
     = (cs2, inr (VValueInfo LITERAL (py_str (a * b)))).
Proof.
  intros Hl Hr.
  rewrite !(make_code_BinaryOperatorNode _ _ _ _ _ _ _ _ Hl Hr).
  rewrite star_is_not_plus, !Token_eqb_refl.
  rewrite (add_literals _ _ a b _ (py_int_py_str a) (py_int_py_str b)).
  rewrite (multiply_literals _ _ a b _ (py_int_py_str a) (py_int_py_str b)).
  split; reflexivity.
Qed.

(** ** Operands that are not literals, operators that are not known *)

(** A descriptor whose storage kind is not [LITERAL]. *)
Lemma add_not_literal (left_value right_value : PyValue) (cs : CodeStore)
  (lt rt : StorageType) (li ri : string) :
  left_value = VValueInfo lt li -> right_value = VValueInfo rt ri ->
  lt <> LITERAL \/ rt <> LITERAL ->
  add left_value right_value cs = inl NotImplementedError.
Proof.
  intros -> -> H. unfold add. simpl.
  destruct lt; simpl; [| reflexivity].
  destruct rt; simpl; [| reflexivity].
  destruct H as [H | H]; contradiction.
Qed.

Lemma multiply_not_literal (left_value right_value : PyValue) (cs : CodeStore)
  (lt rt : StorageType) (li ri : string) :
  left_value = VValueInfo lt li -> right_value = VValueInfo rt ri ->
  lt <> LITERAL \/ rt <> LITERAL ->
  multiply left_value right_value cs = inr VNotImplementedError_class.
Proof.
  intros -> -> H. unfold multiply. simpl.
  destruct lt; simpl; [| reflexivity].
  destruct rt; simpl; [| reflexivity].
  destruct H as [H | H]; contradiction.
Qed.

Lemma unknown_operator_raises
  (left_expr right_expr : Node) (operator : Token)
  (cs cs1 cs2 : CodeStore) (left_value right_value : PyValue) :
  make_code left_expr cs = (cs1, inr left_value) ->
  make_code right_expr cs1 = (cs2, inr right_value) ->
  Token_eqb operator (Token_of_kind plus) = false ->
  Token_eqb operator (Token_of_kind star) = false ->
  make_code (BinaryOperatorNode left_expr operator right_expr) cs
  = (cs2, inl NotImplementedError).
Proof.
  intros Hl Hr Hp Hs.
  rewrite (make_code_BinaryOperatorNode _ _ _ _ _ _ _ _ Hl Hr), Hp, Hs.
  reflexivity.
Qed.

Lemma plus_not_literal_raises
  (left_expr right_expr : Node) (cs cs1 cs2 : CodeStore)
  (lt rt : StorageType) (li ri : string) :
  make_code left_expr cs = (cs1, inr (VValueInfo lt li)) ->
  make_code right_expr cs1 = (cs2, inr (VValueInfo rt ri)) ->
  lt <> LITERAL \/ rt <> LITERAL ->
  make_code (BinaryOperatorNode left_expr (Token_of_kind plus) right_expr) cs
  = (cs2, inl NotImplementedError).
Proof.
  intros Hl Hr H.
  rewrite (make_code_BinaryOperatorNode _ _ _ _ _ _ _ _ Hl Hr).
  rewrite Token_eqb_refl.
  rewrite (add_not_literal _ _ _ _ _ _ _ eq_refl eq_refl H). reflexivity.
Qed.

(** C2, where the code departs from it.  With the star operator and an
    operand whose descriptor is not [LITERAL], [make_code] does not raise: it
    returns, and what it returns is the class [NotImplementedError]. *)
Theorem star_not_literal_returns_the_class
  (left_expr right_expr : Node) (cs cs1 cs2 : CodeStore)
  (lt rt : StorageType) (li ri : string) :
  make_code left_expr cs = (cs1, inr (VValueInfo lt li)) ->
  make_code right_expr cs1 = (cs2, inr (VValueInfo rt ri)) ->
  lt <> LITERAL \/ rt <> LITERAL ->
  make_code (BinaryOperatorNode left_expr (Token_of_kind star) right_expr) cs
  = (cs2, inr VNotImplementedError_class).
Proof.
  intros Hl Hr H.
  rewrite (make_code_BinaryOperatorNode _ _ _ _ _ _ _ _ Hl Hr).
  rewrite star_is_not_plus, Token_eqb_refl.
  rewrite (multiply_not_literal _ _ _ _ _ _ _ eq_refl eq_refl H). reflexivity.
Qed.

(** ** Return statements *)

(** C4. Once its expression has handed back a [LITERAL] descriptor,
    [ReturnNode.make_code] appends three commands: the payload moved into
    [rax], the frame pointer restored, the return; and hands back [None].
    For a descriptor of any other storage kind it raises
    [NotImplementedError] and appends nothing. *)
Theorem ReturnNode_make_code
  (return_value : Node) (cs cs1 : CodeStore) (st : StorageType)
  (payload : string) :
  make_code return_value cs = (cs1, inr (VValueInfo st payload)) ->
  (st = LITERAL ->
   make_code (ReturnNode return_value) cs
   = (cs1 ++ [Command ["mov"; "rax"; payload]; Command ["pop"; "rbp"];
              Command ["ret"]], inr VNone))
  /\ (st <> LITERAL ->
      make_code (ReturnNode return_value) cs = (cs1, inl NotImplementedError)).
Proof.
  intros H. split; intros Hst; simpl; unfold bind; rewrite H; simpl.
  - subst st. simpl. unfold add_command. rewrite <- !app_assoc. reflexivity.
  - destruct st; [contradiction | reflexivity].
Qed.

(** ** The main function *)

Lemma make_code_each_returns (statements : list Node) (cs : CodeStore) :
  Forall (fun s => exists v, outcome s = inr v) statements ->
  make_code_each statements cs
  = (cs ++ List.concat (map written statements), inr tt).
Proof.
  intros H. revert cs. induction H as [| s rest [v Hv] _ IH]; intros cs; simpl.
  - unfold ret. rewrite app_nil_r. reflexivity.
  - unfold bind. rewrite make_code_frame, Hv, IH, app_assoc. reflexivity.
Qed.

(** C3. [MainNode.make_code] appends the label "main", the two commands of
    the prologue, what each statement writes, in the order of the list, and
    then, whatever the statements were, the three commands that return zero;
    it hands back [None].  With no statement, the store ends in these three
    commands. *)
Theorem MainNode_make_code (statements : list Node) (cs : CodeStore) :
  (Forall (fun s => exists v, outcome s = inr v) statements ->
   make_code (MainNode statements) cs
   = (cs ++ [Label "main"; Command ["push"; "rbp"];
             Command ["mov"; "rbp"; "rsp"]]
         ++ List.concat (map written statements)
         ++ [Command ["mov"; "rax"; "0"]; Command ["pop"; "rbp"];
             Command ["ret"]],
      inr VNone))
  /\ make_code (MainNode []) cs
     = (cs ++ [Label "main"; Command ["push"; "rbp"];
               Command ["mov"; "rbp"; "rsp"]; Command ["mov"; "rax"; "0"];
               Command ["pop"; "rbp"]; Command ["ret"]],
        inr VNone).
Proof.
  split.
  - intros H. rewrite make_code_MainNode. unfold bind, updating. simpl.
    rewrite (make_code_each_returns _ _ H). unfold add_label, add_command, ret.
    rewrite <- !app_assoc. reflexivity.
  - simpl. unfold bind, updating, add_label, add_command, ret. simpl.
    rewrite <- !app_assoc. reflexivity.
Qed.

(** ** The observed walk *)

Lemma store_of_app (t t' : Trace) :
  store_of (t ++ t') = store_of t ++ store_of t'.
Proof.
  induction t as [| [n | i | n v] t IH]; simpl; rewrite ?IH; reflexivity.
Qed.

Lemma store_of_writes (items : list Item) : store_of (map Write items) = items.
Proof. induction items as [| i items IH]; simpl; rewrite ?IH; reflexivity. Qed.

Lemma make_code_traced_each_appends (statements : list Node) :
  Forall (fun s => appends (make_code_traced s)) statements ->
  appends (make_code_traced_each statements).
Proof.
  induction 1; simpl; appends_steps.
Qed.

Lemma make_code_traced_MainNode (statements : list Node) :
  make_code_traced (MainNode statements)
  = observed (MainNode statements)
      (log (Write (Label "main")) ;;
       log (Write (Command ["push"; "rbp"])) ;;
       log (Write (Command ["mov"; "rbp"; "rsp"])) ;;
       make_code_traced_each statements ;;
       log (Write (Command ["mov"; "rax"; "0"])) ;;
       log (Write (Command ["pop"; "rbp"])) ;;
       log (Write (Command ["ret"])) ;;
       ret VNone).
Proof. reflexivity. Qed.

Lemma make_code_traced_appends (node : Node) : appends (make_code_traced node).
Proof.
  induction node as [xs IH | x IH | s | l o r IHl IHr | c]
    using Node_nested_ind.
  - rewrite make_code_traced_MainNode. unfold log.
    pose proof (make_code_traced_each_appends xs IH). appends_steps.
  - simpl. unfold log. appends_steps.
  - simpl. unfold log. appends_steps.
  - simpl. unfold log. appends_steps.
    + match goal with
      | |- appends (reading (fun _ => add ?x ?y _)) =>
          apply (appends_reading (add x y []))
      end.
    + match goal with
      | |- appends (reading (fun _ => multiply ?x ?y _)) =>
          apply (appends_reading (multiply x y []))
      end.
  - simpl. unfold log. appends_steps.
Qed.

(** *** The log changes nothing *)

Lemma erases_ret {A : Type} (a : A) : erases_to (ret a) (ret a).
Proof. intros t. reflexivity. Qed.

Lemma erases_raise {A : Type} (e : Exn) : erases_to (A := A) (raise e) (raise e).
Proof. intros t. reflexivity. Qed.

Lemma erases_reading {A : Type} (ft : Trace -> Exn + A)
  (f : CodeStore -> Exn + A) :
  (forall t, ft t = f (store_of t)) -> erases_to (reading ft) (reading f).
Proof. intros H t. unfold reading. simpl. rewrite H. reflexivity. Qed.

Lemma erases_write (item : Item) :
  erases_to (log (Write item)) (updating (fun cs => cs ++ [item])).
Proof. intros t. unfold log, updating. simpl. rewrite store_of_app. reflexivity. Qed.

Lemma erases_writes (items : list Item) :
  erases_to (updating (fun t => t ++ map Write items))
            (updating (fun cs => cs ++ items)).
Proof.
  intros t. unfold updating. simpl.
  rewrite store_of_app, store_of_writes. reflexivity.
Qed.

Lemma erases_bind {A B : Type} (mt : Emit Trace A) (m : Emit CodeStore A)
  (kt : A -> Emit Trace B) (k : A -> Emit CodeStore B) :
  erases_to mt m -> (forall a, erases_to (kt a) (k a)) ->
  erases_to (bind mt kt) (bind m k).
Proof.
  intros Hm Hk t. unfold bind. rewrite (Hm t).
  destruct (mt t) as [t' [e | a]]; simpl.
  - reflexivity.
  - apply Hk.
Qed.

Lemma erases_observed (node : Node) (body : Emit Trace PyValue)
  (m : Emit CodeStore PyValue) :
  erases_to body m ->
  erases_to (observed node body) m.
Proof.
  intros H t. unfold observed, bind, log, updating, ret. simpl.
  pose proof (H (t ++ [Enter node])) as E.
  rewrite store_of_app in E. simpl in E. rewrite app_nil_r in E. rewrite E.
  destruct (body (t ++ [Enter node])) as [t' [e | v]]; simpl.
  - reflexivity.
  - rewrite store_of_app. simpl. rewrite app_nil_r. reflexivity.
Qed.

Ltac erases_steps :=
  repeat first
    [ apply erases_ret
    | apply erases_raise
    | apply erases_write
    | apply erases_writes
    | assumption
    | apply erases_reading; intros ?; reflexivity
    | apply erases_bind; [| intros ?]
    | match goal with
      | |- erases_to (if ?c then _ else _) (if ?c then _ else _) => destruct c
      end ].

Lemma make_code_each_erases (statements : list Node) :
  Forall (fun s => erases_to (make_code_traced s) (make_code s)) statements ->
  erases_to (make_code_traced_each statements) (make_code_each statements).
Proof.
  induction 1; simpl; erases_steps.
Qed.

Lemma make_code_erases (node : Node) :
  erases_to (make_code_traced node) (make_code node).
Proof.
  induction node as [xs IH | x IH | s | l o r IHl IHr | c]
    using Node_nested_ind.
  - rewrite make_code_traced_MainNode, make_code_MainNode.
    pose proof (make_code_each_erases xs IH).
    apply erases_observed. unfold add_label, add_command. erases_steps.
  - apply erases_observed. fold make_code_traced. unfold add_command.
    erases_steps.
  - apply erases_observed. erases_steps.
  - apply erases_observed. fold make_code_traced. erases_steps.
  - apply erases_observed. erases_steps.
Qed.

(** The observed walk writes what the plain walk writes and hands back what
    it hands back. *)
Lemma make_code_traced_frame (node : Node) (t : Trace) :
  make_code_traced node t = (t ++ trace_of node, outcome node).
Proof.
  rewrite (make_code_traced_appends node t). f_equal.
  pose proof (make_code_erases node []) as E. simpl in E.
  unfold outcome. rewrite E. reflexivity.
Qed.

Lemma written_trace_of (node : Node) : written node = store_of (trace_of node).
Proof.
  pose proof (make_code_erases node []) as E. simpl in E.
  unfold written, trace_of. rewrite E. reflexivity.
Qed.

(** ** Left before right *)

Lemma observed_run (node : Node) (body : Emit Trace PyValue) :
  appends body ->
  observed node body []
  = (Enter node :: fst (body [])
       ++ match snd (body []) with
          | inr value => [Leave node value]
          | inl _ => []
          end,
     snd (body [])).
Proof.
  intros H. unfold observed, bind, log, updating, ret. simpl.
  rewrite (H [Enter node]).
  destruct (body []) as [w [e | v]]; simpl.
  - rewrite app_nil_r. reflexivity.
  - reflexivity.
Qed.

(** The log of a call starts with its entry and, when the call returns, ends
    with the value it hands back. *)
Lemma trace_of_observed (node : Node) :
  exists events,
    trace_of node
    = Enter node :: events
        ++ match outcome node with
           | inr value => [Leave node value]
           | inl _ => []
           end.
Proof.
  assert (H : forall body,
             make_code_traced node = observed node body -> appends body ->
             exists events,
               trace_of node
               = Enter node :: events
                   ++ match outcome node with
                      | inr value => [Leave node value]
                      | inl _ => []
                      end).
  { intros body E Hb.
    pose proof (make_code_traced_frame node []) as F. rewrite E in F.
    rewrite (observed_run node body Hb) in F. simpl in F.
    injection F as F1 F2. exists (fst (body [])).
    rewrite <- F1, <- F2. reflexivity. }
  destruct node as [xs | x | s | l o r | c].
  - eapply H; [apply make_code_traced_MainNode |].
    pose proof (make_code_traced_each_appends xs
                  (proj2 (Forall_forall _ _)
                     (fun s _ => make_code_traced_appends s))).
    unfold log. appends_steps.
  - eapply H; [reflexivity |].
    pose proof (make_code_traced_appends x). unfold log. appends_steps.
  - eapply H; [reflexivity |]. appends_steps.
  - eapply H; [reflexivity |].
    pose proof (make_code_traced_appends l).
    pose proof (make_code_traced_appends r). appends_steps.
    + match goal with
      | |- appends (reading (fun _ => add ?x ?y _)) =>
          apply (appends_reading (add x y []))
      end.
    + match goal with
      | |- appends (reading (fun _ => multiply ?x ?y _)) =>
          apply (appends_reading (multiply x y []))
      end.
  - eapply H; [reflexivity |]. appends_steps.
Qed.

Lemma traced_operands (left_expr right_expr : Node) (operator : Token)
  (t : Trace) :
  (do left_value <- make_code_traced left_expr;
   do right_value <- make_code_traced right_expr;
   if Token_eqb operator (Token_of_kind plus) then
     reading (fun t => add left_value right_value (store_of t))
   else if Token_eqb operator (Token_of_kind star) then
     reading (fun t => multiply left_value right_value (store_of t))
   else raise NotImplementedError) t
  = match outcome left_expr with
    | inl e => (t ++ trace_of left_expr, inl e)
    | inr left_value =>
        (t ++ trace_of left_expr ++ trace_of right_expr,
         match outcome right_expr with
         | inl e => inl e
         | inr right_value => dispatch operator left_value right_value
         end)
    end.
Proof.
  unfold bind. rewrite (make_code_traced_frame left_expr).
  destruct (outcome left_expr) as [e | lv]; [reflexivity |].
  rewrite (make_code_traced_frame right_expr), <- app_assoc.
  destruct (outcome right_expr) as [e | rv]; [reflexivity |].
  unfold dispatch.
  destruct (Token_eqb operator (Token_of_kind plus)); [reflexivity |].
  destruct (Token_eqb operator (Token_of_kind star)); reflexivity.
Qed.

(** The log of a binary operation: its entry, the whole log of the left
    operand, then, if the left operand returned, the whole log of the right
    one, then, if the node itself returns, its value. *)
Lemma trace_of_BinaryOperatorNode (left_expr right_expr : Node)
  (operator : Token) :
  let self := BinaryOperatorNode left_expr operator right_expr in
  trace_of self
  = Enter self :: trace_of left_expr
      ++ match outcome left_expr with
         | inl _ => []
         | inr _ =>
             trace_of right_expr
               ++ match outcome self with
                  | inr value => [Leave self value]
                  | inl _ => []
                  end
         end
  /\ outcome self
     = match outcome left_expr with
       | inl e => inl e
       | inr left_value =>
           match outcome right_expr with
           | inl e => inl e
           | inr right_value => dispatch operator left_value right_value
           end
       end.
Proof.
  intros self.
  pose proof (make_code_traced_frame self []) as F.
  remember (trace_of self) as T eqn:ET.
  remember (outcome self) as O eqn:EO.
  unfold self in F. cbn [make_code_traced app] in F.
  unfold observed, log, updating in F. unfold bind at 1 2 in F.
  rewrite traced_operands in F.
  destruct (outcome left_expr) as [e | lv].
  - injection F as F1 F2. rewrite <- F1, <- F2. split; [| reflexivity].
    rewrite app_nil_r. reflexivity.
  - destruct (outcome right_expr) as [e | rv].
    + injection F as F1 F2. rewrite <- F1, <- F2. split; [| reflexivity].
      simpl. rewrite app_nil_r. reflexivity.
    + destruct (dispatch operator lv rv) as [e | v].
      * injection F as F1 F2. rewrite <- F1, <- F2. split; [| reflexivity].
        simpl. rewrite app_nil_r. reflexivity.
      * unfold bind, ret in F. simpl in F.
        injection F as F1 F2. rewrite <- F1, <- F2. split; [| reflexivity].
        rewrite <- app_assoc. reflexivity.
Qed.

Lemma written_BinaryOperatorNode (left_expr right_expr : Node)
  (operator : Token) :
  written (BinaryOperatorNode left_expr operator right_expr)
  = written left_expr
      ++ match outcome left_expr with
         | inl _ => []
         | inr _ => written right_expr
         end.
Proof.
  destruct (trace_of_BinaryOperatorNode left_expr right_expr operator)
    as [HT _].
  cbv zeta in HT.
  rewrite (written_trace_of (BinaryOperatorNode _ _ _)), HT. simpl.
  rewrite store_of_app, <- written_trace_of. f_equal.
  destruct (outcome left_expr) as [e | lv]; [reflexivity |].
  rewrite store_of_app, <- written_trace_of.
  destruct (outcome (BinaryOperatorNode left_expr operator right_expr));
    simpl; rewrite app_nil_r; reflexivity.
Qed.

(** C9. In the log of a [BinaryOperatorNode] call, from any starting log, the
    whole walk of the left operand (its entry, the calls of all the nodes
    below it, their writes, its return) comes first; the walk of the right
    operand starts only after it, and not at all when the left operand
    raised; the node's own return comes last.  The log of each operand is
    the one its walk leaves on its own: it opens with the operand's entry
    and, when the operand returns, closes with its return.  The code store
    shows the same order: what the left operand writes, then what the right
    one writes, whatever the operands are. *)
Theorem left_operand_before_right
  (left_expr right_expr : Node) (operator : Token)
  (t : Trace) (cs : CodeStore) :
  let self := BinaryOperatorNode left_expr operator right_expr in
  fst (make_code_traced self t)
  = t ++ Enter self :: trace_of left_expr
        ++ match outcome left_expr with
           | inl _ => []
           | inr _ =>
               trace_of right_expr
                 ++ match outcome self with
                    | inr value => [Leave self value]
                    | inl _ => []
                    end
           end
  /\ (forall operand t',
      make_code_traced operand t' = (t' ++ trace_of operand, outcome operand))
  /\ (forall operand,
      exists events,
        trace_of operand
        = Enter operand :: events
            ++ match outcome operand with
               | inr value => [Leave operand value]
               | inl _ => []
               end)
  /\ fst (make_code self cs)
     = cs ++ written left_expr
          ++ match outcome left_expr with
             | inl _ => []
             | inr _ => written right_expr
             end.
Proof.
  intros self.
  destruct (trace_of_BinaryOperatorNode left_expr right_expr operator)
    as [HT _].
  fold self in HT. split; [| split; [| split]].
  - rewrite make_code_traced_frame. simpl. rewrite HT. reflexivity.
  - intros operand t'. apply make_code_traced_frame.
  - intros operand. apply trace_of_observed.
  - rewrite make_code_frame. simpl. f_equal.
    apply written_BinaryOperatorNode.
Qed.

(** ** Trees of literals *)

Lemma py_int_cases (s : string) :
  (exists z, py_int s = inr z) \/ py_int s = inl (invalid_literal s).
Proof.
  unfold py_int.
  match goal with
  | |- context [match ?x with Some z => inr z | None => _ end] => destruct x
  end; [left; eexists; reflexivity | right; reflexivity].
Qed.

Lemma dispatch_literals (operator : Token) (pa pb : string) :
  Token_eqb operator (Token_of_kind plus)
  || Token_eqb operator (Token_of_kind star) = true ->
  (exists payload,
      dispatch operator (VValueInfo LITERAL pa) (VValueInfo LITERAL pb)
      = inr (VValueInfo LITERAL payload))
  \/ (exists s,
      dispatch operator (VValueInfo LITERAL pa) (VValueInfo LITERAL pb)
      = inl (invalid_literal s)).
Proof.
  intros Hop. unfold dispatch.
  destruct (Token_eqb operator (Token_of_kind plus));
    [| destruct (Token_eqb operator (Token_of_kind star));
       [| discriminate Hop]];
    destruct (py_int_cases pa) as [[a Ha] | Ha];
    destruct (py_int_cases pb) as [[b Hb] | Hb];
    unfold add, multiply; simpl; rewrite Ha; simpl; rewrite ?Hb; simpl;
    eauto.
Qed.

Lemma literal_tree_literal (node : Node) :
  literal_tree node = true ->
  (forall n value,
      In (Leave n value) (trace_of node) ->
      exists payload, value = VValueInfo LITERAL payload)
  /\ ((exists payload, outcome node = inr (VValueInfo LITERAL payload))
      \/ (exists s, outcome node = inl (invalid_literal s)))
  /\ written node = [].
Proof.
  induction node as [| | s | l IHl o r IHr |]; simpl; try discriminate.
  - intros _. split; [| split].
    + intros n value [E | [E | []]]; [discriminate |].
      injection E as _ <-. eexists. reflexivity.
    + left. eexists. reflexivity.
    + reflexivity.
  - rewrite !andb_true_iff. intros [[Hl Ho] Hr].
    destruct (IHl Hl) as (Ll & Ol & Wl). destruct (IHr Hr) as (Lr & Or & Wr).
    destruct (trace_of_BinaryOperatorNode l r o) as [HT HO].
    cbv zeta in HT, HO.
    assert (Oself :
             (exists payload,
                 outcome (BinaryOperatorNode l o r)
                 = inr (VValueInfo LITERAL payload))
             \/ (exists s,
                 outcome (BinaryOperatorNode l o r) = inl (invalid_literal s))).
    { rewrite HO.
      destruct Ol as [[pa ->] | [sa ->]]; [| right; eexists; reflexivity].
      destruct Or as [[pb ->] | [sb ->]]; [| right; eexists; reflexivity].
      apply dispatch_literals, Ho. }
    split; [| split].
    + intros n value. rewrite HT. intros [E | Hin]; [discriminate |].
      apply in_app_or in Hin. destruct Hin as [Hin | Hin];
        [exact (Ll _ _ Hin) |].
      destruct (outcome l); [destruct Hin |].
      apply in_app_or in Hin. destruct Hin as [Hin | Hin];
        [exact (Lr _ _ Hin) |].
      destruct Oself as [[payload Ep] | [s Es]].
      * rewrite Ep in Hin. destruct Hin as [E | []].
        injection E as _ <-. eexists. reflexivity.
      * rewrite Es in Hin. destruct Hin.
    + exact Oself.
    + rewrite written_BinaryOperatorNode, Wl, Wr.
      destruct (outcome l); reflexivity.
Qed.

(** C8. In the walk of a tree made of [NumberNode] leaves and of
    [BinaryOperatorNode] nodes whose operator is the plus or the star token,
    every value a call hands back is a [LITERAL] descriptor, and the walk
    either returns such a descriptor or stops on the [ValueError] of [int]
    for a payload that is not a numeral.  So [add] and [multiply] are only
    ever called on two [LITERAL] descriptors, and a [ReturnNode] over such a
    tree only ever takes its [LITERAL] branch: no [NotImplementedError] is
    raised and the class [NotImplementedError] is never handed back. *)
Theorem literal_tree_only_literals (node : Node) :
  literal_tree node = true ->
  (forall n value,
      In (Leave n value) (trace_of node) ->
      exists payload, value = VValueInfo LITERAL payload)
  /\ ((exists payload, outcome node = inr (VValueInfo LITERAL payload))
      \/ (exists s, outcome node = inl (invalid_literal s)))
  /\ (forall cs,
      (exists payload,
          make_code (ReturnNode node) cs
          = (cs ++ [Command ["mov"; "rax"; payload]; Command ["pop"; "rbp"];
                    Command ["ret"]], inr VNone))
      \/ (exists s,
          make_code (ReturnNode node) cs = (cs, inl (invalid_literal s)))).
Proof.
  intros H. destruct (literal_tree_literal node H) as (HL & HO & HW).
  split; [exact HL | split; [exact HO |]].
  intros cs. simpl. unfold bind.
  rewrite make_code_frame, HW, app_nil_r.
  destruct HO as [[payload ->] | [s ->]].
  - left. exists payload. simpl. unfold add_command.
    rewrite <- !app_assoc. reflexivity.
  - right. exists s. reflexivity.
Qed.

(** * Further properties *)

(** ** The strings [py_int] reads are ASCII strings *)

Lemma is_space_ascii (c : ascii) :
  is_space c = true -> (nat_of_ascii c <? 128)%nat = true.
Proof.
  destruct c as [[] [] [] [] [] [] [] []]; intros H;
    try reflexivity; discriminate H.
Qed.

Lemma ascii_only_lstrip (s : string) :
  ascii_only (lstrip s) = true -> ascii_only s = true.
Proof.
  induction s as [| c r IH]; simpl; [easy |].
  destruct (is_space c) eqn:E; [| easy].
  intros H. rewrite (is_space_ascii c E), (IH H). reflexivity.
Qed.

Lemma ascii_only_rstrip (s : string) :
  ascii_only (rstrip s) = true -> ascii_only s = true.
Proof.
  induction s as [| c r IH]; simpl; [easy |].
  destruct (rstrip r) as [| c' r'] eqn:Er.
  - destruct (is_space c) eqn:E; simpl; intros H.
    + rewrite (is_space_ascii c E), (IH eq_refl). reflexivity.
    + apply andb_true_iff in H. destruct H as [-> _].
      rewrite (IH eq_refl). reflexivity.
  - intros H. change (ascii_only (String c (String c' r')))
      with ((nat_of_ascii c <? 128)%nat && ascii_only (String c' r')) in H.
    apply andb_true_iff in H. destruct H as [-> H].
    rewrite (IH H). reflexivity.
Qed.

Lemma drop_underscores_ascii (s : string) :
  forall after_digit ds,
    drop_underscores after_digit s = Some ds ->
    ascii_only ds = true -> ascii_only s = true.
Proof.
  induction s as [| c r IH]; intros after_digit ds; simpl; [easy |].
  destruct (Ascii.eqb_spec c "_"%char) as [-> | _].
  - destruct after_digit; [| discriminate]. intros H Hds.
    rewrite (IH _ _ H Hds). reflexivity.
  - destruct (drop_underscores true r) as [ds' |] eqn:E; [| discriminate].
    simpl. intros H. injection H as <-. simpl. intros Hds.
    apply andb_true_iff in Hds. destruct Hds as [-> Hds].
    rewrite (IH _ _ E Hds). reflexivity.
Qed.

Lemma uint_of_string_ascii (ds : string) :
  forall d, NilEmpty.uint_of_string ds = Some d -> ascii_only ds = true.
Proof.
  induction ds as [| c r IH]; intros d; simpl; [easy |].
  destruct (NilEmpty.uint_of_string r) as [d' |] eqn:E.
  - rewrite (IH d' eq_refl), andb_true_r.
    destruct c as [[] [] [] [] [] [] [] []]; intros H;
      try reflexivity; discriminate H.
  - destruct c as [[] [] [] [] [] [] [] []]; discriminate.
Qed.

Lemma digits_value_ascii (s : string) (n : N) :
  digits_value s = Some n -> ascii_only s = true.
Proof.
  unfold digits_value.
  destruct (drop_underscores false s) as [ds |] eqn:E; [| discriminate].
  destruct (NilEmpty.uint_of_string ds) as [d |] eqn:Ed; [| discriminate].
  intros _. exact (drop_underscores_ascii s _ _ E (uint_of_string_ascii _ _ Ed)).
Qed.

(** Whatever [py_int] reads is a string of ASCII characters: where a
    property asks for numerals, it speaks of strings for which the model is
    the one of [int]. *)
Lemma py_int_ascii (s : string) (z : Z) :
  py_int s = inr z -> ascii_only s = true.
Proof.
  unfold py_int. intros H.
  apply ascii_only_lstrip, ascii_only_rstrip.
  destruct (rstrip (lstrip s)) as [| c r]; [discriminate H |].
  assert (Hsign : forall n, digits_value r = Some n ->
                            (nat_of_ascii c <? 128)%nat = true ->
                            ascii_only (String c r) = true).
  { intros n Hn Hc. simpl. rewrite Hc, (digits_value_ascii r n Hn).
    reflexivity. }
  destruct (digits_value (String c r)) as [n |] eqn:Eb;
    [exact (digits_value_ascii _ _ Eb) |].
  destruct (digits_value r) as [n |] eqn:Er.
  - apply (Hsign n eq_refl).
    destruct c as [[] [] [] [] [] [] [] []]; try reflexivity;
      simpl in H; rewrite ?Eb, ?Er in H; discriminate H.
  - destruct c as [[] [] [] [] [] [] [] []];
      simpl in H; rewrite ?Eb, ?Er in H; discriminate H.
Qed.

Lemma numeral_leaves_ascii (node : Node) :
  numeral_leaves node = true -> ascii_leaves node = true.
Proof.
  induction node as [| | s | l IHl o r IHr |]; simpl; try discriminate.
  - unfold is_numeral. destruct (py_int (content s)) as [e | z] eqn:E;
      [discriminate |].
    intros _. exact (py_int_ascii _ _ E).
  - rewrite !andb_true_iff. intros [Hl Hr]. split; [apply IHl | apply IHr];
      assumption.
Qed.


(** ** Folding computes the value of the tree *)

Lemma is_numeral_py_int (s : string) :
  is_numeral s = true -> exists z, py_int s = inr z.
Proof.
  unfold is_numeral. destruct (py_int s) as [e | z]; [discriminate |].
  intros _. exists z. reflexivity.
Qed.

Lemma literal_tree_folds (node : Node) (cs : CodeStore) :
  literal_tree node = true -> numeral_leaves node = true ->
  make_code node cs = (cs, inr (VValueInfo LITERAL (folded_payload node)))
  /\ py_int (folded_payload node) = inr (value_of node).
Proof.
  revert cs. induction node as [| | s | l IHl o r IHr |];
    intros cs; simpl literal_tree; simpl numeral_leaves; try discriminate.
  - intros _ Hs. split; [reflexivity |].
    simpl. destruct (is_numeral_py_int _ Hs) as [z ->]. reflexivity.
  - rewrite !andb_true_iff. intros [[Hl Ho] Hr] [Nl Nr].
    destruct (IHl cs Hl Nl) as [El Pl]. destruct (IHr cs Hr Nr) as [Er Pr].
    rewrite (make_code_BinaryOperatorNode _ _ _ _ _ _ _ _ El Er).
    unfold folded_payload. cbn [value_of].
    destruct (Token_eqb o (Token_of_kind plus)).
    + rewrite (add_literals _ _ _ _ _ Pl Pr).
      split; [reflexivity | apply py_int_py_str].
    + simpl in Ho. rewrite Ho, (multiply_literals _ _ _ _ _ Pl Pr).
      split; [reflexivity | apply py_int_py_str].
Qed.

(** X1. Folding is right on trees of any depth: when every number token of
    an arithmetic tree carries a numeral, [make_code] returns, writes
    nothing, and hands back a [LITERAL] descriptor whose payload reads as the
    integer the tree stands for; below a [BinaryOperatorNode] that payload is
    the numeral [str] prints for it. *)
Theorem folding_computes_the_value (node : Node) (cs : CodeStore) :
  literal_tree node = true -> numeral_leaves node = true ->
  exists payload,
    make_code node cs = (cs, inr (VValueInfo LITERAL payload))
    /\ py_int payload = inr (value_of node)
    /\ (forall left_expr operator right_expr,
           node = BinaryOperatorNode left_expr operator right_expr ->
           payload = py_str (value_of node)).
Proof.
  intros Hl Hn. destruct (literal_tree_folds node cs Hl Hn) as [E P].
  exists (folded_payload node). split; [exact E | split; [exact P |]].
  intros l o r ->. reflexivity.
Qed.

(** ** Folding fails exactly on a token that is not a numeral *)

Lemma dispatch_returns_numerals (operator : Token) (pa pb : string)
  (value : PyValue) :
  Token_eqb operator (Token_of_kind plus)
  || Token_eqb operator (Token_of_kind star) = true ->
  dispatch operator (VValueInfo LITERAL pa) (VValueInfo LITERAL pb)
  = inr value ->
  is_numeral pa = true /\ is_numeral pb = true.
Proof.
  intros Hop. unfold dispatch, is_numeral.
  destruct (Token_eqb operator (Token_of_kind plus));
    [| destruct (Token_eqb operator (Token_of_kind star));
       [| discriminate Hop]];
    unfold add, multiply; simpl;
    destruct (py_int pa); simpl; try discriminate;
    destruct (py_int pb); simpl; try discriminate;
    intros _; split; reflexivity.
Qed.

Lemma returned_payload_numeral (node : Node) :
  literal_tree node = true ->
  forall payload,
    outcome node = inr (VValueInfo LITERAL payload) ->
    is_numeral payload = true -> numeral_leaves node = true.
Proof.
  induction node as [| | s | l IHl o r IHr |];
    simpl literal_tree; try discriminate.
  - intros _ payload E. injection E as <-. intros H. exact H.
  - rewrite !andb_true_iff. intros [[Hl Ho] Hr] payload E _.
    destruct (trace_of_BinaryOperatorNode l r o) as [_ HO].
    cbv zeta in HO. rewrite HO in E.
    destruct (literal_tree_literal l Hl) as (_ & Ol & _).
    destruct (literal_tree_literal r Hr) as (_ & Or & _).
    destruct Ol as [[pl El] | [sl El]]; rewrite El in E; [| discriminate].
    destruct Or as [[pr Er] | [sr Er]]; rewrite Er in E; [| discriminate].
    destruct (dispatch_returns_numerals o pl pr _ Ho E) as [Nl Nr].
    simpl. rewrite (IHl Hl pl El Nl), (IHr Hr pr Er Nr). reflexivity.
Qed.

Lemma binary_returned_numerals (l r : Node) (o : Token) (value : PyValue) :
  literal_tree (BinaryOperatorNode l o r) = true ->
  outcome (BinaryOperatorNode l o r) = inr value ->
  numeral_leaves (BinaryOperatorNode l o r) = true.
Proof.
  simpl literal_tree. rewrite !andb_true_iff. intros [[Hl Ho] Hr] E.
  destruct (trace_of_BinaryOperatorNode l r o) as [_ HO].
  cbv zeta in HO. rewrite HO in E.
  destruct (literal_tree_literal l Hl) as (_ & Ol & _).
  destruct (literal_tree_literal r Hr) as (_ & Or & _).
  destruct Ol as [[pl El] | [sl El]]; rewrite El in E; [| discriminate].
  destruct Or as [[pr Er] | [sr Er]]; rewrite Er in E; [| discriminate].
  destruct (dispatch_returns_numerals o pl pr _ Ho E) as [Nl Nr].
  simpl. rewrite (returned_payload_numeral l Hl pl El Nl).
  rewrite (returned_payload_numeral r Hr pr Er Nr). reflexivity.
Qed.

(** X2. A [BinaryOperatorNode] over an arithmetic tree whose number tokens
    are ASCII strings returns exactly when every number token below it
    carries a numeral; otherwise it raises the [ValueError] of [int], and in
    both cases it writes nothing. *)
Theorem folding_returns_iff_numerals
  (left_expr right_expr : Node) (operator : Token) :
  let self := BinaryOperatorNode left_expr operator right_expr in
  literal_tree self = true ->
  ascii_leaves self = true ->
  ((exists value, outcome self = inr value) <-> numeral_leaves self = true)
  /\ (numeral_leaves self = false ->
      exists s, outcome self = inl (invalid_literal s))
  /\ written self = [].
Proof.
  intros self H _.
  destruct (literal_tree_literal self H) as (_ & HO & HW).
  assert (Hiff : (exists value, outcome self = inr value)
                 <-> numeral_leaves self = true).
  { split.
    - intros [value E]. exact (binary_returned_numerals _ _ _ value H E).
    - intros N. destruct (literal_tree_folds self [] H N) as [E _].
      eexists. unfold outcome. rewrite E. reflexivity. }
  split; [exact Hiff | split; [| exact HW]].
  intros N. destruct HO as [[p Ep] | [s Es]].
  - rewrite (proj1 Hiff (ex_intro _ _ Ep)) in N. discriminate.
  - exists s. exact Es.
Qed.

(** ** Whole programs *)

Lemma literal_tree_symbol (node : Node) :
  literal_tree node = true -> symbol node = "expression".
Proof. destruct node; simpl; try discriminate; reflexivity. Qed.

Lemma return_of_literal_tree (node : Node) (cs : CodeStore) :
  literal_tree node = true -> numeral_leaves node = true ->
  make_code (ReturnNode node) cs
  = (cs ++ return_sequence (folded_payload node), inr VNone).
Proof.
  intros Hl Hn. destruct (literal_tree_folds node cs Hl Hn) as [E _].
  simpl. unfold bind. rewrite E. simpl. unfold add_command, return_sequence.
  rewrite <- !app_assoc. reflexivity.
Qed.

Lemma returns_of_literal_trees (trees : list Node) (cs : CodeStore) :
  Forall (fun e => literal_tree e = true /\ numeral_leaves e = true) trees ->
  make_code_each (map ReturnNode trees) cs
  = (cs ++ flat_map (fun e => return_sequence (folded_payload e)) trees,
     inr tt).
Proof.
  intros H. revert cs.
  induction H as [| e rest [Hl Hn] _ IH]; intros cs.
  - simpl. unfold ret. rewrite app_nil_r. reflexivity.
  - cbn [map make_code_each flat_map]. unfold bind at 1.
    rewrite (return_of_literal_tree e cs Hl Hn), IH, <- app_assoc.
    reflexivity.
Qed.

(** X3. A program of return statements over arithmetic on numerals goes
    through: the constructors accept every return statement and the main
    function, and [make_code] returns [None] with, after the label and the
    prologue, one return sequence per statement, loading the folded payload
    of its expression, in the order of the statements, and then the sequence
    that returns zero. *)
Theorem arithmetic_program_compiles (trees : list Node) (cs : CodeStore) :
  Forall (fun e => literal_tree e = true /\ numeral_leaves e = true) trees ->
  Forall (fun e => ReturnNode_init e = inr (ReturnNode e)) trees
  /\ MainNode_init (map ReturnNode trees)
     = inr (MainNode (map ReturnNode trees))
  /\ make_code (MainNode (map ReturnNode trees)) cs
     = (cs ++ [Label "main"; Command ["push"; "rbp"];
               Command ["mov"; "rbp"; "rsp"]]
           ++ flat_map (fun e => return_sequence (folded_payload e)) trees
           ++ return_sequence "0",
        inr VNone).
Proof.
  intros H. split; [| split].
  - induction H as [| e rest [Hl _] _ IH]; constructor; [| exact IH].
    unfold ReturnNode_init.
    rewrite (assert_symbol_ok _ _ (literal_tree_symbol e Hl)). reflexivity.
  - unfold MainNode_init. rewrite assert_symbol_each_ok; [reflexivity |].
    clear H. induction trees; constructor; [reflexivity | assumption].
  - rewrite make_code_MainNode. unfold bind, updating. simpl.
    rewrite (returns_of_literal_trees _ _ H).
    unfold add_label, add_command, ret, return_sequence.
    rewrite <- !app_assoc. reflexivity.
Qed.

(** ** When a statement or an expression raises *)

Lemma make_code_each_raises (before after : list Node) (bad : Node)
  (e : Exn) (cs : CodeStore) :
  Forall (fun s => exists v, outcome s = inr v) before ->
  outcome bad = inl e ->
  make_code_each (before ++ bad :: after) cs
  = (cs ++ List.concat (map written before) ++ written bad, inl e).
Proof.
  intros H Hbad. revert cs.
  induction H as [| s rest [v Hv] _ IH]; intros cs; simpl.
  - unfold bind. rewrite make_code_frame, Hbad. reflexivity.
  - unfold bind at 1. rewrite make_code_frame, Hv, IH, <- !app_assoc.
    reflexivity.
Qed.

(** X4. When a statement of the main function raises, [MainNode.make_code]
    raises the same exception; the store then holds the label, the prologue,
    what the statements before it wrote and what the failing one wrote
    before it raised: the statements after it are not visited and the
    sequence that returns zero is not appended. *)
Theorem MainNode_stops_at_the_first_failure
  (before after : list Node) (bad : Node) (e : Exn) (cs : CodeStore) :
  Forall (fun s => exists v, outcome s = inr v) before ->
  outcome bad = inl e ->
  make_code (MainNode (before ++ bad :: after)) cs
  = (cs ++ [Label "main"; Command ["push"; "rbp"];
            Command ["mov"; "rbp"; "rsp"]]
        ++ List.concat (map written before) ++ written bad,
     inl e).
Proof.
  intros H Hbad. rewrite make_code_MainNode. unfold bind, updating. simpl.
  rewrite (make_code_each_raises _ _ _ _ _ H Hbad).
  unfold add_label, add_command. rewrite <- !app_assoc. reflexivity.
Qed.

(** X5. [ReturnNode.make_code] appends nothing of its own unless its
    expression hands back a [LITERAL] descriptor: an exception of the
    expression goes through unchanged, and a value that is no descriptor
    ([None], or the class that [multiply] returns) makes the read of
    [storage_type] raise [AttributeError]. *)
Theorem ReturnNode_without_a_descriptor
  (return_value : Node) (cs : CodeStore) :
  (forall e, outcome return_value = inl e ->
             make_code (ReturnNode return_value) cs
             = (cs ++ written return_value, inl e))
  /\ (forall value,
         outcome return_value = inr value ->
         value = VNone \/ value = VNotImplementedError_class ->
         make_code (ReturnNode return_value) cs
         = (cs ++ written return_value, inl AttributeError)).
Proof.
  split.
  - intros e He. simpl. unfold bind. rewrite make_code_frame, He.
    reflexivity.
  - intros value Hv Hno. simpl. unfold bind. rewrite make_code_frame, Hv.
    destruct Hno as [-> | ->]; reflexivity.
Qed.

(** X6. The operator is looked at only after both operands have been walked:
    with an operator whose kind is neither [plus] nor [star], what the two
    operands write is in the store when [NotImplementedError] is raised; and
    an exception of an operand comes before it. *)
Theorem operator_tested_after_the_operands
  (left_expr right_expr : Node) (operator : Token) (cs : CodeStore) :
  kind operator <> plus -> kind operator <> star ->
  make_code (BinaryOperatorNode left_expr operator right_expr) cs
  = match outcome left_expr with
    | inl e => (cs ++ written left_expr, inl e)
    | inr _ =>
        (cs ++ written left_expr ++ written right_expr,
         match outcome right_expr with
         | inl e => inl e
         | inr _ => inl NotImplementedError
         end)
    end.
Proof.
  intros Hp Hs.
  assert (Ep : Token_eqb operator (Token_of_kind plus) = false).
  { destruct (Token_eqb operator (Token_of_kind plus)) eqn:E; [| reflexivity].
    apply dispatch_iff in E. destruct E as [E _]. contradiction. }
  assert (Es : Token_eqb operator (Token_of_kind star) = false).
  { destruct (Token_eqb operator (Token_of_kind star)) eqn:E; [| reflexivity].
    apply dispatch_iff in E. destruct E as [E _]. contradiction. }
  simpl. unfold bind. rewrite (make_code_frame left_expr).
  destruct (outcome left_expr) as [e | lv]; [reflexivity |].
  rewrite (make_code_frame right_expr), <- app_assoc.
  destruct (outcome right_expr) as [e | rv]; [reflexivity |].
  rewrite Ep, Es. reflexivity.
Qed.

(** ** Trees with the same value fold alike *)

Lemma py_str_injective (a b : Z) : py_str a = py_str b -> a = b.
Proof.
  intros E. pose proof (py_int_py_str a) as Ha. rewrite E, py_int_py_str in Ha.
  congruence.
Qed.

(** X7. What a [BinaryOperatorNode] over numerals hands back depends on the
    value of the tree alone: two such trees hand back the same descriptor
    exactly when they stand for the same integer.  So swapping the
    operands, regrouping a sum or a product, or distributing a product over
    a sum does not change the descriptor. *)
Theorem equal_values_fold_alike
  (l1 r1 l2 r2 : Node) (o1 o2 : Token) :
  let t1 := BinaryOperatorNode l1 o1 r1 in
  let t2 := BinaryOperatorNode l2 o2 r2 in
  literal_tree t1 = true -> numeral_leaves t1 = true ->
  literal_tree t2 = true -> numeral_leaves t2 = true ->
  (outcome t1 = outcome t2 <-> value_of t1 = value_of t2).
Proof.
  intros t1 t2 L1 N1 L2 N2.
  destruct (literal_tree_folds t1 [] L1 N1) as [E1 _].
  destruct (literal_tree_folds t2 [] L2 N2) as [E2 _].
  unfold outcome. rewrite E1, E2. cbn [snd]. unfold folded_payload.
  fold t1 t2. unfold t1 at 1, t2 at 1. split.
  - intros E. injection E as E. apply py_str_injective, E.
  - intros ->. reflexivity.
Qed.

(** ** The store only grows *)

(** X8. Whatever the node, [make_code] leaves the store it was handed in
    place and only adds to its end; what it adds and what it hands back or
    raises are the same from any store. *)
Theorem make_code_only_appends (node : Node) (cs1 cs2 : CodeStore) :
  exists added,
    fst (make_code node cs1) = cs1 ++ added
    /\ fst (make_code node cs2) = cs2 ++ added
    /\ snd (make_code node cs1) = snd (make_code node cs2).
Proof.
  exists (written node). rewrite !make_code_frame. repeat split.
Qed.

(** ** Equal nodes *)

Lemma Node_eq_sound (a b : Node) : Node_eq a b = true -> a = b.
Proof.
  revert b. induction a as [xs IH | x IH | s | l o r IHl IHr | c]
    using Node_nested_ind; intros b; destruct b as [ys | y | t | l' o' r' | c'];
    try discriminate.
  - intros H. f_equal. revert ys H.
    induction IH as [| x xs Hx _ IHxs]; intros [| y ys]; simpl;
      try discriminate; [reflexivity |].
    rewrite andb_true_iff. intros [H1 H2].
    rewrite (Hx y H1). f_equal. apply IHxs, H2.
  - simpl. intros H. f_equal. apply IH, H.
  - simpl. intros H. f_equal. apply Token_eqb_eq, H.
  - simpl. rewrite !andb_true_iff. intros [[H1 H2] H3].
    rewrite (IHl _ H1), (IHr _ H3), (proj1 (Token_eqb_eq _ _) H2).
    reflexivity.
  - simpl. destruct (NodeClass_eq_dec c c') as [-> | _];
      [reflexivity | discriminate].
Qed.

Lemma Node_eq_refl (a : Node) : Node_eq a a = true.
Proof.
  induction a as [xs IH | x IH | s | l o r IHl IHr | c] using Node_nested_ind.
  - simpl. induction IH as [| x xs Hx _ IHxs]; [reflexivity |].
    rewrite Hx. exact IHxs.
  - exact IH.
  - apply Token_eqb_refl.
  - simpl. rewrite IHl, IHr, Token_eqb_refl. reflexivity.
  - simpl. destruct (NodeClass_eq_dec c c); [reflexivity | contradiction].
Qed.

(** X9. [Node.__eq__] is an equivalence: a node equals itself, the answer
    does not depend on which of the two nodes is asked, and nodes equal to
    a common one are equal. *)
Theorem Node_eq_equivalence :
  (forall a, Node_eq a a = true)
  /\ (forall a b, Node_eq a b = Node_eq b a)
  /\ (forall a b c,
         Node_eq a b = true -> Node_eq b c = true -> Node_eq a c = true).
Proof.
  split; [exact Node_eq_refl | split].
  - intros a b. destruct (Node_eq a b) eqn:E.
    + apply Node_eq_sound in E. subst b. symmetry. apply Node_eq_refl.
    + destruct (Node_eq b a) eqn:E'; [| reflexivity].
      apply Node_eq_sound in E'. subst b. rewrite Node_eq_refl in E.
      discriminate.
  - intros a b c Hab Hbc. apply Node_eq_sound in Hab, Hbc. subst.
    apply Node_eq_refl.
Qed.

(** ** The main function names the first statement it rejects *)

(** X11. [MainNode.__init__] checks its statements in order and stops at the
    first whose symbol is not "statement": the error carries that element's
    symbol, whatever comes after it. *)
Theorem MainNode_init_first_offender (before after : list Node) (bad : Node) :
  Forall (fun s => symbol s = "statement") before ->
  symbol bad <> "statement" ->
  MainNode_init (before ++ bad :: after)
  = inl (ValueError [AStr "malformed tree: expected symbol ";
                     AStr "statement"; AStr ", got "; AStr (symbol bad)]).
Proof.
  intros H Hbad. unfold MainNode_init.
  assert (E : assert_symbol_each (before ++ bad :: after) "statement"
              = inl (ValueError [AStr "malformed tree: expected symbol ";
                                 AStr "statement"; AStr ", got ";
                                 AStr (symbol bad)])).
  { induction H as [| s rest Hs _ IH]; simpl.
    - rewrite (assert_symbol_fails _ _ Hbad). reflexivity.
    - rewrite (assert_symbol_ok _ _ Hs). exact IH. }
  rewrite E. reflexivity.
Qed.

(** ** Trees the constructors accept *)

Lemma assert_symbol_inr (node : Node) (symbol_name : string) :
  assert_symbol node symbol_name = inr tt -> symbol node = symbol_name.
Proof.
  unfold assert_symbol.
  destruct (String.eqb_spec (symbol node) symbol_name); [easy | discriminate].
Qed.

Lemma assert_symbol_each_inr (nodes : list Node) (symbol_name : string) :
  assert_symbol_each nodes symbol_name = inr tt ->
  Forall (fun node => symbol node = symbol_name) nodes.
Proof.
  induction nodes as [| node rest IH]; simpl; [constructor |].
  destruct (assert_symbol node symbol_name) as [e | []] eqn:E;
    [discriminate |].
  simpl. intros H. constructor; [apply assert_symbol_inr, E | apply IH, H].
Qed.

Lemma accepted_MainNode (statements : list Node) :
  accepted (MainNode statements) = true
  <-> Forall (fun s => symbol s = "statement" /\ accepted s = true) statements.
Proof.
  induction statements as [| s rest IH].
  - split; [constructor | reflexivity].
  - change (accepted (MainNode (s :: rest)))
      with (String.eqb (symbol s) "statement" && accepted s
            && accepted (MainNode rest)).
    rewrite !andb_true_iff, String.eqb_eq, IH. split.
    + intros [[H1 H2] H3]. constructor; [split |]; assumption.
    + intros H. inversion H as [| ? ? [H1 H2] H3]; subst. repeat split;
        assumption.
Qed.

(** X12. The constructors build accepted trees: a node that one of the four
    constructors returns, from a token or from accepted children, is
    accepted in turn; so is every tree built with the constructors alone. *)
Theorem constructors_build_accepted_trees :
  (forall token node,
      NumberNode_init token = inr node -> accepted node = true)
  /\ (forall child node,
         accepted child = true ->
         ReturnNode_init child = inr node -> accepted node = true)
  /\ (forall left_expr operator right_expr node,
         accepted left_expr = true -> accepted right_expr = true ->
         BinaryOperatorNode_init left_expr operator right_expr = inr node ->
         accepted node = true)
  /\ (forall statements node,
         Forall (fun s => accepted s = true) statements ->
         MainNode_init statements = inr node -> accepted node = true).
Proof.
  split; [| split; [| split]].
  - intros token node. unfold NumberNode_init, assert_kind.
    destruct (TokenKind_eqb (kind token) number) eqn:E; simpl;
      [| discriminate].
    intros H. injection H as <-. exact E.
  - intros child node Hc. unfold ReturnNode_init.
    destruct (assert_symbol child "expression") as [e | []] eqn:E;
      [discriminate |].
    simpl. intros H. injection H as <-. simpl.
    rewrite (assert_symbol_inr _ _ E), Hc. reflexivity.
  - intros l operator r node Hl Hr. unfold BinaryOperatorNode_init.
    destruct (assert_symbol l "expression") as [e | []] eqn:El;
      [discriminate |].
    simpl. destruct operator as [t | s |]; simpl; try discriminate.
    destruct (assert_symbol r "expression") as [e | []] eqn:Er;
      [discriminate |].
    simpl. intros H. injection H as <-. simpl.
    rewrite (assert_symbol_inr _ _ El), (assert_symbol_inr _ _ Er), Hl, Hr.
    reflexivity.
  - intros statements node Hs. unfold MainNode_init.
    destruct (assert_symbol_each statements "statement") as [e | []] eqn:E;
      [discriminate |].
    simpl. intros H. injection H as <-. apply accepted_MainNode.
    apply assert_symbol_each_inr in E.
    induction Hs as [| s rest Hs _ IH]; [constructor |].
    inversion E; subst. constructor; [split; assumption | apply IH].
    assumption.
Qed.

Lemma dispatch_of_literals (operator : Token) (pa pb : string) :
  (exists payload,
      dispatch operator (VValueInfo LITERAL pa) (VValueInfo LITERAL pb)
      = inr (VValueInfo LITERAL payload))
  \/ (exists e,
      dispatch operator (VValueInfo LITERAL pa) (VValueInfo LITERAL pb)
      = inl e /\ expected_failure e).
Proof.
  destruct (Token_eqb operator (Token_of_kind plus)
            || Token_eqb operator (Token_of_kind star)) eqn:Hop.
  - destruct (dispatch_literals operator pa pb Hop) as [H | [s Hs]];
      [left; exact H |].
    right. eexists. split; [exact Hs | left; eexists; reflexivity].
  - apply orb_false_iff in Hop. destruct Hop as [Hp Hs].
    right. exists NotImplementedError. unfold dispatch. rewrite Hp, Hs.
    split; [reflexivity | right; reflexivity].
Qed.

Lemma accepted_statements_outcome (statements : list Node) (cs : CodeStore) :
  Forall (fun s => outcome s = inr VNone
                   \/ exists e, outcome s = inl e /\ expected_failure e)
         statements ->
  snd (make_code_each statements cs) = inr tt
  \/ exists e, snd (make_code_each statements cs) = inl e
               /\ expected_failure e.
Proof.
  intros H. revert cs. induction H as [| s rest Hs _ IH]; intros cs; simpl.
  - left. reflexivity.
  - unfold bind. rewrite make_code_frame.
    destruct Hs as [-> | (e & -> & He)].
    + apply IH.
    + right. exists e. split; [reflexivity | exact He].
Qed.

Lemma accepted_tree_outcome (node : Node) :
  accepted node = true ->
  (symbol node = "expression" ->
   (exists payload, outcome node = inr (VValueInfo LITERAL payload))
   \/ (exists e, outcome node = inl e /\ expected_failure e))
  /\ (symbol node <> "expression" ->
      outcome node = inr VNone
      \/ (exists e, outcome node = inl e /\ expected_failure e)).
Proof.
  induction node as [xs IH | x IH | s | l o r IHl IHr | c]
    using Node_nested_ind; intros Hacc.
  - split; [discriminate |]. intros _.
    apply accepted_MainNode in Hacc.
    assert (Hs : Forall (fun s => outcome s = inr VNone
                                  \/ exists e, outcome s = inl e
                                               /\ expected_failure e) xs).
    { induction IH as [| s rest Hs _ IHrest]; [constructor |].
      inversion Hacc as [| ? ? [H1 H2] H3]; subst.
      constructor; [| apply IHrest, H3].
      apply (proj2 (Hs H2)). rewrite H1. discriminate. }
    unfold outcome. rewrite make_code_MainNode. unfold bind, updating.
    simpl.
    destruct (accepted_statements_outcome xs
                (add_command ["mov"; "rbp"; "rsp"]
                   (add_command ["push"; "rbp"] (add_label "main" []))) Hs)
      as [E | (e & E & He)];
      destruct (make_code_each xs _) as [cs' [e' | []]]; simpl in E;
      try discriminate.
    + left. reflexivity.
    + right. exists e'. injection E as ->. split; [reflexivity | exact He].
  - split; [discriminate |]. intros _.
    simpl in Hacc. apply andb_true_iff in Hacc. destruct Hacc as [Hsym Hx].
    apply String.eqb_eq in Hsym.
    unfold outcome. simpl. unfold bind. rewrite make_code_frame.
    destruct (proj1 (IH Hx) Hsym) as [[p ->] | (e & -> & He)].
    + left. reflexivity.
    + right. exists e. split; [reflexivity | exact He].
  - split; [| intros H; contradiction H; reflexivity].
    intros _. left. eexists. reflexivity.
  - split; [| intros H; contradiction H; reflexivity].
    intros _. simpl in Hacc. rewrite !andb_true_iff in Hacc.
    destruct Hacc as [[[Sl Al] Sr] Ar]. apply String.eqb_eq in Sl, Sr.
    destruct (trace_of_BinaryOperatorNode l r o) as [_ HO].
    cbv zeta in HO. rewrite HO.
    destruct (proj1 (IHl Al) Sl) as [[pl ->] | (e & -> & He)];
      [| right; exists e; split; [reflexivity | exact He]].
    destruct (proj1 (IHr Ar) Sr) as [[pr ->] | (e & -> & He)];
      [| right; exists e; split; [reflexivity | exact He]].
    apply dispatch_of_literals.
  - discriminate.
Qed.

(** X13. The walk of a tree the constructors accept never meets a value it
    cannot read: an expression returns a [LITERAL] descriptor and a
    statement or a main function returns [None], or else the walk raises the
    [ValueError] of [int] or the [NotImplementedError] of an operator that
    is neither plus nor star.  No [AttributeError] is raised, and the class
    that [multiply] returns for an operand that is not a literal is never
    handed back: that branch is out of reach of the four classes. *)
Theorem accepted_tree_walk (node : Node) (cs : CodeStore) :
  accepted node = true ->
  match snd (make_code node cs) with
  | inr value =>
      if String.eqb (symbol node) "expression"
      then exists payload, value = VValueInfo LITERAL payload
      else value = VNone
  | inl e => expected_failure e
  end.
Proof.
  intros H. rewrite make_code_frame. cbn [snd].
  destruct (accepted_tree_outcome node H) as [He Hs].
  destruct (String.eqb_spec (symbol node) "expression") as [E | E].
  - destruct (He E) as [[p ->] | (e & -> & Hf)];
      [exists p; reflexivity | exact Hf].
  - destruct (Hs E) as [-> | (e & -> & Hf)]; [reflexivity | exact Hf].
Qed.

(** ** How the operands' values are read *)

(** X14. [add] and [multiply] read the left value first and the right one
    only if the left is a [LITERAL] descriptor.  A left value that is no
    descriptor raises [AttributeError]; a left descriptor that is not
    [LITERAL] settles the answer whatever the right value is, even one that
    is no descriptor; after a [LITERAL] left descriptor, a right value that
    is no descriptor raises [AttributeError]. *)
Theorem operands_read_left_to_right
  (left_expr right_expr : Node) (operator : Token) (cs : CodeStore)
  (left_value right_value : PyValue) :
  outcome left_expr = inr left_value ->
  outcome right_expr = inr right_value ->
  Token_eqb operator (Token_of_kind plus)
  || Token_eqb operator (Token_of_kind star) = true ->
  let result :=
    snd (make_code (BinaryOperatorNode left_expr operator right_expr) cs) in
  (left_value = VNone \/ left_value = VNotImplementedError_class ->
   result = inl AttributeError)
  /\ (forall st info,
         left_value = VValueInfo st info -> st <> LITERAL ->
         result = if Token_eqb operator (Token_of_kind plus)
                  then inl NotImplementedError
                  else inr VNotImplementedError_class)
  /\ (forall info,
         left_value = VValueInfo LITERAL info ->
         right_value = VNone \/ right_value = VNotImplementedError_class ->
         result = inl AttributeError).
Proof.
  intros Hl Hr Hop result.
  assert (E : result
              = if Token_eqb operator (Token_of_kind plus)
                then add left_value right_value []
                else multiply left_value right_value []).
  { unfold result. rewrite make_code_frame. cbn [snd].
    destruct (trace_of_BinaryOperatorNode left_expr right_expr operator)
      as [_ HO].
    cbv zeta in HO. rewrite HO, Hl, Hr. unfold dispatch.
    destruct (Token_eqb operator (Token_of_kind plus)); [reflexivity |].
    simpl in Hop. rewrite Hop. reflexivity. }
  rewrite E. clear E. split; [| split].
  - intros [-> | ->];
      destruct (Token_eqb operator (Token_of_kind plus)); reflexivity.
  - intros st info -> Hst. destruct st; [contradiction |].
    destruct (Token_eqb operator (Token_of_kind plus)); reflexivity.
  - intros info -> [-> | ->];
      destruct (Token_eqb operator (Token_of_kind plus)); reflexivity.
Qed.

End Emission.

(** * Worked examples

    With tokens whose content is the text of the operator. *)

Lemma BinaryOperatorNode_folds_witness :
  make_code text_repr
    (BinaryOperatorNode (literal "2") (mkToken plus "+") (literal "3")) []
  = ([], inr (VValueInfo LITERAL "5"))
  /\ make_code text_repr
       (BinaryOperatorNode (literal "2") (mkToken star "*") (literal "3")) []
     = ([], inr (VValueInfo LITERAL "6")).
Proof.
  split.
  - exact (proj1 (BinaryOperatorNode_folds text_repr (literal "2")
                    (literal "3") (mkToken plus "+") [] [] [] "2" "3" 2 3
                    eq_refl eq_refl eq_refl eq_refl) eq_refl eq_refl).
  - exact (proj2 (BinaryOperatorNode_folds text_repr (literal "2")
                    (literal "3") (mkToken star "*") [] [] [] "2" "3" 2 3
                    eq_refl eq_refl eq_refl eq_refl) eq_refl eq_refl).
Defined.

(** C1, as it is stated, fails: the kind of the operator token does not
    decide.  A token of kind [plus] whose content is not that of
    [Token(token_kinds.plus)] is not equal to it, and the node raises
    [NotImplementedError]; whatever content the constructor gives, there is
    such a token. *)
Lemma kind_plus_alone_does_not_fold :
  kind (mkToken plus "x") = plus
  /\ make_code text_repr
       (BinaryOperatorNode (literal "2") (mkToken plus "x") (literal "3")) []
     = ([], inl NotImplementedError)
  /\ ~ (exists default_content,
          forall operator,
            kind operator = plus ->
            make_code default_content
              (BinaryOperatorNode (literal "2") operator (literal "3")) []
            = ([], inr (VValueInfo LITERAL "5"))).
Proof.
  split; [reflexivity | split; [reflexivity |]].
  intros [default_content H].
  specialize (H (mkToken plus (default_content plus ++ "x")%string) eq_refl).
  assert (E : String.eqb (default_content plus ++ "x")%string
                (default_content plus) = false).
  { apply String.eqb_neq. generalize (default_content plus).
    intros s E. induction s as [| c s IH]; [discriminate |].
    injection E as E. exact (IH E). }
  cbn in H. unfold bind, Token_eqb in H. cbn in H. rewrite E in H.
  cbn in H. discriminate.
Qed.

Lemma star_not_literal_returns_the_class_witness :
  make_code text_repr
    (BinaryOperatorNode register_node (Token_of_kind text_repr star)
       (literal "3")) []
  = ([Command ["mov"; "rbx"; "7"]], inr VNotImplementedError_class).
Proof.
  apply (star_not_literal_returns_the_class text_repr register_node
           (literal "3") [] [Command ["mov"; "rbx"; "7"]]
           [Command ["mov"; "rbx"; "7"]] (other_storage 0) LITERAL "rbx" "3"
           eq_refl eq_refl).
  left. discriminate.
Defined.

(** The sibling path: with the plus token the same operands raise. *)
Example plus_not_literal_raises_example :
  make_code text_repr
    (BinaryOperatorNode register_node (Token_of_kind text_repr plus)
       (literal "3")) []
  = ([Command ["mov"; "rbx"; "7"]], inl NotImplementedError).
Proof. reflexivity. Qed.

(** What becomes of the class once it is handed to a [ReturnNode]. *)
Example return_of_the_class_example :
  make_code text_repr
    (ReturnNode
       (BinaryOperatorNode register_node (Token_of_kind text_repr star)
          (literal "3"))) []
  = ([Command ["mov"; "rbx"; "7"]], inl AttributeError).
Proof. reflexivity. Qed.

Lemma ReturnNode_make_code_witness :
  make_code text_repr (ReturnNode (literal "5")) []
  = ([Command ["mov"; "rax"; "5"]; Command ["pop"; "rbp"]; Command ["ret"]],
     inr VNone)
  /\ make_code text_repr (ReturnNode register_node) []
     = ([Command ["mov"; "rbx"; "7"]], inl NotImplementedError).
Proof.
  split.
  - apply (proj1 (ReturnNode_make_code text_repr (literal "5") [] []
                    LITERAL "5" eq_refl) eq_refl).
  - apply (proj2 (ReturnNode_make_code text_repr register_node []
                    [Command ["mov"; "rbx"; "7"]] (other_storage 0) "rbx"
                    eq_refl)).
    discriminate.
Defined.

Lemma MainNode_make_code_witness :
  make_code text_repr (MainNode [ReturnNode (literal "5")]) []
  = ([Label "main"; Command ["push"; "rbp"]; Command ["mov"; "rbp"; "rsp"];
      Command ["mov"; "rax"; "5"]; Command ["pop"; "rbp"]; Command ["ret"];
      Command ["mov"; "rax"; "0"]; Command ["pop"; "rbp"]; Command ["ret"]],
     inr VNone).
Proof.
  apply (proj1 (MainNode_make_code text_repr [ReturnNode (literal "5")] [])).
  constructor; [exists VNone; reflexivity | constructor].
Defined.

Lemma literal_tree_only_literals_witness :
  let tree :=
    BinaryOperatorNode
      (BinaryOperatorNode (literal "2") (Token_of_kind text_repr plus)
         (literal "3"))
      (Token_of_kind text_repr star)
      (BinaryOperatorNode (literal "4") (Token_of_kind text_repr plus)
         (literal "5")) in
  (forall n value,
      In (Leave n value) (trace_of text_repr tree) ->
      exists payload, value = VValueInfo LITERAL payload)
  /\ ((exists payload, outcome text_repr tree = inr (VValueInfo LITERAL payload))
      \/ (exists s, outcome text_repr tree = inl (invalid_literal s)))
  /\ (forall cs,
      (exists payload,
          make_code text_repr (ReturnNode tree) cs
          = (cs ++ [Command ["mov"; "rax"; payload]; Command ["pop"; "rbp"];
                    Command ["ret"]], inr VNone))
      \/ (exists s,
          make_code text_repr (ReturnNode tree) cs
          = (cs, inl (invalid_literal s)))).
Proof.
  intros tree. apply (literal_tree_only_literals text_repr tree).
  reflexivity.
Defined.

Lemma left_operand_before_right_witness :
  let left_expr :=
    BinaryOperatorNode (literal "2") (mkToken plus "+") (literal "3") in
  let self := BinaryOperatorNode left_expr (mkToken star "*") register_node in
  fst (make_code_traced text_repr self [])
  = [Enter self;
     Enter left_expr;
     Enter (literal "2"); Leave (literal "2") (VValueInfo LITERAL "2");
     Enter (literal "3"); Leave (literal "3") (VValueInfo LITERAL "3");
     Leave left_expr (VValueInfo LITERAL "5");
     Enter register_node; Write (Command ["mov"; "rbx"; "7"]);
     Leave register_node (VValueInfo (other_storage 0) "rbx");
     Leave self VNotImplementedError_class].
Proof.
  intros left_expr self.
  exact (proj1 (left_operand_before_right text_repr left_expr register_node
                  (mkToken star "*") [] [])).
Defined.

(** ** The scenarios of the specification *)

(** [return 2 + 3;] loads 5. *)
Example return_2_plus_3 :
  make_code text_repr
    (ReturnNode (BinaryOperatorNode (literal "2") (mkToken plus "+")
                   (literal "3"))) []
  = ([Command ["mov"; "rax"; "5"]; Command ["pop"; "rbp"]; Command ["ret"]],
     inr VNone).
Proof. reflexivity. Qed.

(** [return 2 * 3 + 4;] loads 10. *)
Example return_2_times_3_plus_4 :
  make_code text_repr
    (ReturnNode
       (BinaryOperatorNode
          (BinaryOperatorNode (literal "2") (mkToken star "*") (literal "3"))
          (mkToken plus "+") (literal "4"))) []
  = ([Command ["mov"; "rax"; "10"]; Command ["pop"; "rbp"]; Command ["ret"]],
     inr VNone).
Proof. reflexivity. Qed.

(** [return (2+3) * (4+5);]: the calls, in order. *)
Example order_of_the_calls :
  let sum a b := BinaryOperatorNode (literal a) (mkToken plus "+") (literal b) in
  let self := BinaryOperatorNode (sum "2" "3") (mkToken star "*") (sum "4" "5") in
  trace_of text_repr self
  = [Enter self;
     Enter (sum "2" "3");
     Enter (literal "2"); Leave (literal "2") (VValueInfo LITERAL "2");
     Enter (literal "3"); Leave (literal "3") (VValueInfo LITERAL "3");
     Leave (sum "2" "3") (VValueInfo LITERAL "5");
     Enter (sum "4" "5");
     Enter (literal "4"); Leave (literal "4") (VValueInfo LITERAL "4");
     Enter (literal "5"); Leave (literal "5") (VValueInfo LITERAL "5");
     Leave (sum "4" "5") (VValueInfo LITERAL "9");
     Leave self (VValueInfo LITERAL "45")].
Proof. reflexivity. Qed.

(** ** Further properties, on examples *)

Lemma folding_computes_the_value_witness :
  let tree :=
    BinaryOperatorNode
      (BinaryOperatorNode (literal "2") (mkToken star "*") (literal "3"))
      (mkToken plus "+") (literal "4") in
  exists payload,
    make_code text_repr tree [] = ([], inr (VValueInfo LITERAL payload))
    /\ py_int payload = inr (value_of text_repr tree)
    /\ (forall left_expr operator right_expr,
           tree = BinaryOperatorNode left_expr operator right_expr ->
           payload = py_str (value_of text_repr tree)).
Proof.
  intros tree.
  exact (folding_computes_the_value text_repr tree [] eq_refl eq_refl).
Defined.

Lemma folding_returns_iff_numerals_witness :
  let self :=
    BinaryOperatorNode (literal "2") (mkToken plus "+") (literal "x") in
  ((exists value, outcome text_repr self = inr value)
   <-> numeral_leaves self = true)
  /\ (numeral_leaves self = false ->
      exists s, outcome text_repr self = inl (invalid_literal s))
  /\ written text_repr self = [].
Proof.
  intros self.
  exact (folding_returns_iff_numerals text_repr (literal "2") (literal "x")
           (mkToken plus "+") eq_refl eq_refl).
Defined.

Lemma arithmetic_program_compiles_witness :
  let trees :=
    [BinaryOperatorNode (literal "2") (mkToken plus "+") (literal "3");
     literal "7"] in
  Forall (fun e => ReturnNode_init e = inr (ReturnNode e)) trees
  /\ MainNode_init (map ReturnNode trees)
     = inr (MainNode (map ReturnNode trees))
  /\ make_code text_repr (MainNode (map ReturnNode trees)) []
     = ([] ++ [Label "main"; Command ["push"; "rbp"];
               Command ["mov"; "rbp"; "rsp"]]
           ++ flat_map (fun e => return_sequence (folded_payload text_repr e))
                trees
           ++ return_sequence "0",
        inr VNone).
Proof.
  intros trees. apply (arithmetic_program_compiles text_repr trees []).
  repeat constructor.
Defined.

Lemma MainNode_stops_at_the_first_failure_witness :
  make_code text_repr
    (MainNode ([ReturnNode (literal "1")]
               ++ ReturnNode register_node :: [ReturnNode (literal "2")])) []
  = ([] ++ [Label "main"; Command ["push"; "rbp"];
            Command ["mov"; "rbp"; "rsp"]]
        ++ List.concat (map (written text_repr) [ReturnNode (literal "1")])
        ++ written text_repr (ReturnNode register_node),
     inl NotImplementedError).
Proof.
  apply (MainNode_stops_at_the_first_failure text_repr
           [ReturnNode (literal "1")] [ReturnNode (literal "2")]
           (ReturnNode register_node) NotImplementedError []).
  - constructor; [exists VNone; reflexivity | constructor].
  - reflexivity.
Defined.

Lemma ReturnNode_without_a_descriptor_witness :
  make_code text_repr
    (ReturnNode (BinaryOperatorNode register_node (mkToken star "*")
                   (literal "3"))) []
  = ([] ++ written text_repr
             (BinaryOperatorNode register_node (mkToken star "*")
                (literal "3")),
     inl AttributeError)
  /\ make_code text_repr
       (ReturnNode (BinaryOperatorNode (literal "x") (mkToken plus "+")
                      (literal "3"))) []
     = ([] ++ written text_repr
                (BinaryOperatorNode (literal "x") (mkToken plus "+")
                   (literal "3")),
        inl (invalid_literal "x")).
Proof.
  split.
  - apply (proj2 (ReturnNode_without_a_descriptor text_repr
                    (BinaryOperatorNode register_node (mkToken star "*")
                       (literal "3")) [])
             VNotImplementedError_class eq_refl).
    right. reflexivity.
  - apply (proj1 (ReturnNode_without_a_descriptor text_repr
                    (BinaryOperatorNode (literal "x") (mkToken plus "+")
                       (literal "3")) [])
             (invalid_literal "x") eq_refl).
Defined.

Lemma operator_tested_after_the_operands_witness :
  make_code text_repr
    (BinaryOperatorNode register_node (mkToken (other_kind "minus") "-")
       register_node) []
  = ([Command ["mov"; "rbx"; "7"]; Command ["mov"; "rbx"; "7"]],
     inl NotImplementedError).
Proof.
  apply (operator_tested_after_the_operands text_repr register_node
           register_node (mkToken (other_kind "minus") "-") []);
    discriminate.
Defined.

Lemma equal_values_fold_alike_witness :
  let t1 := BinaryOperatorNode (literal "2") (mkToken plus "+") (literal "3") in
  let t2 := BinaryOperatorNode (literal "3") (mkToken plus "+") (literal "2") in
  outcome text_repr t1 = outcome text_repr t2
  <-> value_of text_repr t1 = value_of text_repr t2.
Proof.
  intros t1 t2.
  exact (equal_values_fold_alike text_repr (literal "2") (literal "3")
           (literal "3") (literal "2") (mkToken plus "+") (mkToken plus "+")
           eq_refl eq_refl eq_refl eq_refl).
Defined.

Lemma MainNode_init_first_offender_witness :
  MainNode_init ([ReturnNode (literal "1")]
                 ++ literal "2" :: [MainNode []])
  = inl (ValueError [AStr "malformed tree: expected symbol ";
                     AStr "statement"; AStr ", got ";
                     AStr (symbol (literal "2"))]).
Proof.
  apply (MainNode_init_first_offender [ReturnNode (literal "1")]
           [MainNode []] (literal "2")).
  - constructor; [reflexivity | constructor].
  - discriminate.
Defined.

Lemma constructors_build_accepted_trees_witness :
  accepted (NumberNode (mkToken number "2")) = true
  /\ accepted (ReturnNode (literal "2")) = true
  /\ accepted (BinaryOperatorNode (literal "2") (mkToken plus "+")
                 (literal "3")) = true
  /\ accepted (MainNode [ReturnNode (literal "2")]) = true.
Proof.
  destruct constructors_build_accepted_trees as (HN & HR & HB & HM).
  split; [| split; [| split]].
  - exact (HN (mkToken number "2") _ eq_refl).
  - exact (HR (literal "2") _ eq_refl eq_refl).
  - exact (HB (literal "2") (OToken (mkToken plus "+")) (literal "3") _
              eq_refl eq_refl eq_refl).
  - apply (HM [ReturnNode (literal "2")] _); [| reflexivity].
    constructor; [reflexivity | constructor].
Defined.

Lemma accepted_tree_walk_witness :
  match
    snd (make_code text_repr
           (MainNode
              [ReturnNode
                 (BinaryOperatorNode (literal "2")
                    (mkToken (other_kind "minus") "-") (literal "3"))]) [])
  with
  | inr value => value = VNone
  | inl e => expected_failure e
  end.
Proof.
  exact (accepted_tree_walk text_repr
           (MainNode
              [ReturnNode
                 (BinaryOperatorNode (literal "2")
                    (mkToken (other_kind "minus") "-") (literal "3"))])
           [] eq_refl).
Defined.

Lemma operands_read_left_to_right_witness :
  snd (make_code text_repr
         (BinaryOperatorNode register_node (mkToken plus "+")
            (ReturnNode (literal "1"))) [])
  = inl NotImplementedError.
Proof.
  apply (proj1 (proj2 (operands_read_left_to_right text_repr register_node
                         (ReturnNode (literal "1")) (mkToken plus "+") []
                         (VValueInfo (other_storage 0) "rbx") VNone
                         eq_refl eq_refl eq_refl))
           (other_storage 0) "rbx" eq_refl).
  discriminate.
Defined.
